(** * Memory persistence and its reference delegates

    A shallow embedding of
    [packages/firestore/src/local/memory_persistence.ts]: the in-memory
    persistence coordinator, the eager and the LRU reference delegates and
    the memory persistence provider, together with the properties of the
    garbage-collection layer that the specification states about them. *)

From stdpp Require Import gmap strings list.

Set Default Proof Using "Type".
Local Open Scope Z_scope.
Local Open Scope string_scope.

(** ** Effects

    The TypeScript code mutates objects in place and signals failure either
    by a [throw] or by a rejected [PersistencePromise]; a [next] callback
    that throws rejects the promise it returns, and all promises of the
    memory implementation settle synchronously.  A computation is therefore
    a function from the world [W] to a completion and the world it leaves
    behind.  There is no rollback: the world of an abrupt completion keeps
    every mutation made before the failure. *)

(** Error codes of [util/error.ts] (the canonical status codes). *)
Inductive Code : Type :=
  | OK | CANCELLED | UNKNOWN | INVALID_ARGUMENT | DEADLINE_EXCEEDED
  | NOT_FOUND | ALREADY_EXISTS | PERMISSION_DENIED | UNAUTHENTICATED
  | RESOURCE_EXHAUSTED | FAILED_PRECONDITION | ABORTED | OUT_OF_RANGE
  | UNIMPLEMENTED | INTERNAL | UNAVAILABLE | DATA_LOSS.

(** What can be thrown: a user-visible [FirestoreError], the internal
    assertion failure raised by [fail]/[assert] of [util/assert.ts], and the
    [TypeError] of the JavaScript runtime on a property access on [null]. *)
Inductive Error : Type :=
  | FirestoreError (code : Code) (message : string)
  | AssertionFailure (message : string)
  | TypeError (message : string).

Inductive Completion (A : Type) : Type :=
  | Normal (a : A)
  | Abrupt (e : Error).
Arguments Normal {A} a.
Arguments Abrupt {A} e.

Definition Eff (W A : Type) : Type := W -> Completion A * W.

Section Effects.
Context {W : Type}.

Definition ret {A} (a : A) : Eff W A := fun w => (Normal a, w).

Definition throw {A} (e : Error) : Eff W A := fun w => (Abrupt e, w).

Definition bind {A B} (m : Eff W A) (k : A -> Eff W B) : Eff W B :=
  fun w =>
    match m w with
    | (Normal a, w') => k a w'
    | (Abrupt e, w') => (Abrupt e, w')
    end.

Definition gets {A} (f : W -> A) : Eff W A := fun w => (Normal (f w), w).

Definition modify (f : W -> W) : Eff W unit := fun w => (Normal tt, f w).

(** Modelled from the spec: [fail] of [util/assert.ts], the unconditional
    assertion failure (a programming error, fatal). *)
Definition fail {A} (failure : string) : Eff W A :=
  throw (AssertionFailure failure).

(** A synchronous [Array.prototype.forEach]-style loop whose body may
    throw: the first exception leaves the loop. *)
Fixpoint iter {X} (body : X -> Eff W unit) (xs : list X) : Eff W unit :=
  match xs with
  | [] => ret tt
  | x :: rest => bind (body x) (fun _ => iter body rest)
  end.
End Effects.

Declare Scope eff_scope.
Delimit Scope eff_scope with eff.
Notation "'let!' x ':=' c 'in' k" := (bind c (fun x => k))
  (at level 10, x name, c at level 100, k at level 200) : eff_scope.
Notation "c1 '>>' c2" := (bind c1 (fun _ => c2))
  (at level 100, c2 at level 200, right associativity) : eff_scope.
Local Open Scope eff_scope.

(** Modelled from the spec: [PersistencePromise] of
    [local/persistence_promise.ts].  [or] is the lazy disjunction of the
    spec's design notes: zero-argument predicates evaluated in a fixed
    order, stopping at the first that resolves to true.  [forEach] runs
    the callback on every element of the collection and waits for all of
    them; the local variables the callback captures and mutates (a
    counter, a change buffer) are threaded as [locals].  A rejected
    callback leaves the locals as they were, the remaining callbacks
    still run, and the first rejection is the outcome. *)
Module PersistencePromise.
Section Ops.
Context {W : Type}.

Definition resolve {A} (a : A) : Eff W A := ret a.

Definition next {A B} (p : Eff W A) (k : A -> Eff W B) : Eff W B :=
  bind p k.

Definition or (predicates : list (Eff W bool)) : Eff W bool :=
  fold_left
    (fun p predicate =>
       next p (fun isTrue =>
                 if isTrue : bool then resolve isTrue else predicate))
    predicates (resolve false).

Fixpoint forEach {X L} (collection : list X) (f : X -> L -> Eff W L)
    (locals : L) : Eff W L :=
  match collection with
  | [] => resolve locals
  | x :: rest =>
      fun w =>
        match f x locals w with
        | (Normal locals', w') => forEach rest f locals' w'
        | (Abrupt e, w') => (Abrupt e, snd (forEach rest f locals w'))
        end
  end.
End Ops.
End PersistencePromise.

(** ** Data model *)

(** A [DocumentKey] is an immutable object: [oid] is the identity of the
    object, [path] the resource path it names.  Two key objects with the
    same path are equal for [isEqual] and for every comparator-keyed
    collection, but they are different elements of a JavaScript [Set]. *)
Abbreviation ObjId := nat (only parsing).
Abbreviation ResourcePath := (list string) (only parsing).

Record DocumentKey : Type := { oid : ObjId; path : ResourcePath }.

Global Instance DocumentKey_eq_dec : EqDecision DocumentKey.
Proof. solve_decision. Defined.

Abbreviation ListenSequenceNumber := Z (only parsing).
Abbreviation TargetId := Z (only parsing).

(** [MemoryTransaction]: only a tag carrying the sequence number. *)
Record MemoryTransaction : Type :=
  { currentSequenceNumber : ListenSequenceNumber }.

(** A JavaScript [Set<DocumentKey>]: insertion ordered, membership by
    object identity. *)
Module JsSet.
Definition t := list DocumentKey.
Definition empty : t := [].
Definition has (key : DocumentKey) (s : t) : bool :=
  bool_decide (key ∈ s).
Definition add (key : DocumentKey) (s : t) : t :=
  if has key s then s else (s ++ [key])%list.
Definition delete (key : DocumentKey) (s : t) : t :=
  filter (fun k => k <> key) s.
End JsSet.

(** Modelled from the spec: [ReferenceSet] of [local/reference_set.ts], a
    collection of (key, target or batch id) references ordered by a
    comparator; [containsKey] compares keys by path. *)
Record DocReference : Type :=
  { ref_key : DocumentKey; targetOrBatchId : Z }.

Module ReferenceSet.
Definition t := list DocReference.

Definition containsKey (key : DocumentKey) (rs : t) : bool :=
  existsb (fun r => bool_decide (path (ref_key r) = path key)) rs.

Definition referencesForId (id : Z) (rs : t) : list DocumentKey :=
  ref_key <$> filter (fun r => targetOrBatchId r = id) rs.

Definition removeReferencesForId (id : Z) (rs : t) : t :=
  filter (fun r => targetOrBatchId r <> id) rs.
End ReferenceSet.

(** Modelled from the spec: [TargetData] of [local/target_data.ts], the
    metadata of one target: its id and its last-used sequence number. *)
Record TargetData : Type :=
  { targetId : TargetId; sequenceNumber : ListenSequenceNumber }.

Definition withSequenceNumber (sequenceNumber : ListenSequenceNumber)
    (targetData : TargetData) : TargetData :=
  {| targetId := targetId targetData; sequenceNumber := sequenceNumber |}.

(** Modelled from the spec: the state of the collaborators owned by the
    coordinator.  A mutation queue is the set of references of its pending
    batches; the target cache holds the metadata of every target (here
    keyed by target id) and the references of the documents the targets
    match; the document cache maps the path of each resident document to
    the key object stored with its entry. *)
Record MemoryMutationQueue : Type :=
  { batchesByDocumentKey : ReferenceSet.t }.

Record MemoryTargetCache : Type :=
  { targets : gmap Z TargetData; references : ReferenceSet.t }.

Record MemoryRemoteDocumentCache : Type :=
  { docs : gmap (list string) nat }.

(** ** The persistence coordinator

    [MemoryPersistence] and its delegate hold references to each other; the
    state of the delegate is the field [referenceDelegate], of type [D],
    and the delegate's methods run on the whole coordinator.
    [mutationQueues] is the JavaScript object used as a map from
    [user.toKey()] to a queue: an association list in insertion order,
    which is the order of [Object.values]. *)
Record MemoryPersistence (D : Type) : Type :=
  { mutationQueues : list (string * MemoryMutationQueue);
    remoteDocumentCache : MemoryRemoteDocumentCache;
    targetCache : MemoryTargetCache;
    listenSequence : ListenSequenceNumber;
    _started : bool;
    referenceDelegate : D }.
Arguments mutationQueues {D} _.
Arguments remoteDocumentCache {D} _.
Arguments targetCache {D} _.
Arguments listenSequence {D} _.
Arguments _started {D} _.
Arguments referenceDelegate {D} _.

(** Calls into the reference sources, recorded in the order they are made;
    the record is what makes the order and the laziness of an [or]
    observable. *)
Inductive Call : Type :=
  | MutationQueue_containsKey (user : string) (key : ResourcePath)
  | InMemoryPins_containsKey (key : ResourcePath)
  | TargetCache_containsKey (key : ResourcePath)
  | OrphanedSequenceNumbers_get (key : ResourcePath)
  | OnCommittedEvent (sequenceNumber : ListenSequenceNumber).

Record World (D : Type) : Type :=
  { store : MemoryPersistence D; calls : list Call }.
Arguments store {D} _.
Arguments calls {D} _.

Section Coordinator.
Context {D : Type}.

Definition record (c : Call) : Eff (World D) unit :=
  modify (fun w => {| store := store w; calls := (calls w ++ [c])%list |}).

Definition update (f : MemoryPersistence D -> MemoryPersistence D)
    : Eff (World D) unit :=
  modify (fun w => {| store := f (store w); calls := calls w |}).

Definition set_remoteDocumentCache (c : MemoryRemoteDocumentCache)
    (p : MemoryPersistence D) : MemoryPersistence D :=
  {| mutationQueues := mutationQueues p;
     remoteDocumentCache := c;
     targetCache := targetCache p;
     listenSequence := listenSequence p;
     _started := _started p;
     referenceDelegate := referenceDelegate p |}.

Definition set_targetCache (c : MemoryTargetCache)
    (p : MemoryPersistence D) : MemoryPersistence D :=
  {| mutationQueues := mutationQueues p;
     remoteDocumentCache := remoteDocumentCache p;
     targetCache := c;
     listenSequence := listenSequence p;
     _started := _started p;
     referenceDelegate := referenceDelegate p |}.

Definition set_referenceDelegate (d : D)
    (p : MemoryPersistence D) : MemoryPersistence D :=
  {| mutationQueues := mutationQueues p;
     remoteDocumentCache := remoteDocumentCache p;
     targetCache := targetCache p;
     listenSequence := listenSequence p;
     _started := _started p;
     referenceDelegate := d |}.

Definition set_listenSequence (n : ListenSequenceNumber)
    (p : MemoryPersistence D) : MemoryPersistence D :=
  {| mutationQueues := mutationQueues p;
     remoteDocumentCache := remoteDocumentCache p;
     targetCache := targetCache p;
     listenSequence := n;
     _started := _started p;
     referenceDelegate := referenceDelegate p |}.

(** Modelled from the spec: [MemoryMutationQueue.containsKey]. *)
Definition MemoryMutationQueue_containsKey (user : string)
    (queue : MemoryMutationQueue) (transaction : MemoryTransaction)
    (key : DocumentKey) : Eff (World D) bool :=
  record (MutationQueue_containsKey user (path key)) >>
  ret (ReferenceSet.containsKey key (batchesByDocumentKey queue)).

(** Modelled from the spec: the operations of [MemoryTargetCache] the
    delegates use.  [removeTargetData] drops the metadata of the target
    and the references held for its id; [updateTargetData] stores the
    metadata under the target's id. *)
Definition MemoryTargetCache_containsKey (txn : MemoryTransaction)
    (key : DocumentKey) : Eff (World D) bool :=
  record (TargetCache_containsKey (path key)) >>
  gets (fun w => ReferenceSet.containsKey key
                   (references (targetCache (store w)))).

Definition getMatchingKeysForTargetId (txn : MemoryTransaction)
    (id : TargetId) : Eff (World D) (list DocumentKey) :=
  gets (fun w => ReferenceSet.referencesForId id
                   (references (targetCache (store w)))).

Definition removeTargetData (txn : MemoryTransaction)
    (targetData : TargetData) : Eff (World D) unit :=
  update (fun p =>
    set_targetCache
      {| targets := delete (targetId targetData) (targets (targetCache p));
         references :=
           ReferenceSet.removeReferencesForId (targetId targetData)
             (references (targetCache p)) |} p).

Definition updateTargetData (txn : MemoryTransaction)
    (targetData : TargetData) : Eff (World D) unit :=
  update (fun p =>
    set_targetCache
      {| targets :=
           <[targetId targetData := targetData]> (targets (targetCache p));
         references := references (targetCache p) |} p).

(** Modelled from the spec: the buffered-change mechanism of the document
    cache.  [removeEntry] stages the removal of a key, [apply] commits
    the staged removals; [forEachDocumentKey] visits the key of every
    resident document. *)
Definition ChangeBuffer := list DocumentKey.

Definition newChangeBuffer : ChangeBuffer := [].

Definition removeEntry (key : DocumentKey) (changeBuffer : ChangeBuffer)
    : ChangeBuffer :=
  (changeBuffer ++ [key])%list.

Definition applyChanges (changeBuffer : ChangeBuffer)
    (cache : MemoryRemoteDocumentCache) : MemoryRemoteDocumentCache :=
  {| docs := fold_left (fun d key => delete (path key) d)
               changeBuffer (docs cache) |}.

Definition apply (changeBuffer : ChangeBuffer) (txn : MemoryTransaction)
    : Eff (World D) unit :=
  update (fun p =>
    set_remoteDocumentCache
      (applyChanges changeBuffer (remoteDocumentCache p)) p).

Definition documentKeys (cache : MemoryRemoteDocumentCache)
    : list DocumentKey :=
  (fun e => {| oid := e.2; path := e.1 |}) <$> map_to_list (docs cache).

Definition forEachDocumentKey {L} (txn : MemoryTransaction)
    (f : DocumentKey -> L -> Eff (World D) L) (locals : L)
    : Eff (World D) L :=
  fun w =>
    PersistencePromise.forEach
      (documentKeys (remoteDocumentCache (store w))) f locals w.

(** [MemoryPersistence.mutationQueuesContainKey] *)
Definition mutationQueuesContainKey (transaction : MemoryTransaction)
    (key : DocumentKey) : Eff (World D) bool :=
  fun w =>
    PersistencePromise.or
      (map (fun uq => MemoryMutationQueue_containsKey uq.1 uq.2
                        transaction key)
           (mutationQueues (store w))) w.

End Coordinator.

(** [inMemoryPins!.containsKey(key)]: the pin set is borrowed through
    [setInMemoryPins]; while the field is still [null] the property access
    throws. *)
Definition pinsNull : Error :=
  TypeError "Cannot read property 'containsKey' of null".

Definition InMemoryPins_query {D} (inMemoryPins : World D -> option ReferenceSet.t)
    (key : DocumentKey) : Eff (World D) bool :=
  fun w =>
    match inMemoryPins w with
    | Some pins =>
        (record (InMemoryPins_containsKey (path key)) >>
         ret (ReferenceSet.containsKey key pins)) w
    | None =>
        throw pinsNull w
    end.

(** ** The eager reference delegate *)
Module MemoryEagerDelegate.

Record t : Type :=
  { inMemoryPins : option ReferenceSet.t;
    _orphanedDocuments : option JsSet.t }.

(** The constructor: both fields start as [null]. *)
Definition new : t :=
  {| inMemoryPins := None; _orphanedDocuments := None |}.

Local Abbreviation W := (World t).

Definition set_orphanedDocuments (o : option JsSet.t) : Eff W unit :=
  update (fun p =>
    set_referenceDelegate
      {| inMemoryPins := inMemoryPins (referenceDelegate p);
         _orphanedDocuments := o |} p).

(** The getter [orphanedDocuments]. *)
Definition orphanedDocuments : Eff W JsSet.t :=
  fun w =>
    match _orphanedDocuments (referenceDelegate (store w)) with
    | None => fail "orphanedDocuments is only valid during a transaction." w
    | Some orphans => ret orphans w
    end.

Definition setInMemoryPins (pins : ReferenceSet.t) : Eff W unit :=
  update (fun p =>
    set_referenceDelegate
      {| inMemoryPins := Some pins;
         _orphanedDocuments := _orphanedDocuments (referenceDelegate p) |}
      p).

(** [this.orphanedDocuments.delete(key)] and [.add(key)]: the set object
    is fetched through the getter and mutated in place. *)
Definition orphanedDocuments_delete (key : DocumentKey) : Eff W unit :=
  let! orphans := orphanedDocuments in
  set_orphanedDocuments (Some (JsSet.delete key orphans)).

Definition orphanedDocuments_add (key : DocumentKey) : Eff W unit :=
  let! orphans := orphanedDocuments in
  set_orphanedDocuments (Some (JsSet.add key orphans)).

Definition addReference (txn : MemoryTransaction) (key : DocumentKey)
    : Eff W unit :=
  orphanedDocuments_delete key >>
  PersistencePromise.resolve tt.

Definition removeReference (txn : MemoryTransaction) (key : DocumentKey)
    : Eff W unit :=
  orphanedDocuments_add key >>
  PersistencePromise.resolve tt.

Definition removeMutationReference (txn : MemoryTransaction)
    (key : DocumentKey) : Eff W unit :=
  orphanedDocuments_add key >>
  PersistencePromise.resolve tt.

Definition removeTarget (txn : MemoryTransaction)
    (targetData : TargetData) : Eff W unit :=
  let! keys := getMatchingKeysForTargetId txn (targetId targetData) in
  iter orphanedDocuments_add keys >>
  removeTargetData txn targetData.

Definition onTransactionStarted : Eff W unit :=
  set_orphanedDocuments (Some JsSet.empty).

Definition isReferenced (txn : MemoryTransaction) (key : DocumentKey)
    : Eff W bool :=
  PersistencePromise.or
    [ MemoryTargetCache_containsKey txn key;
      mutationQueuesContainKey txn key;
      InMemoryPins_query
        (fun w => inMemoryPins (referenceDelegate (store w))) key ].

Definition onTransactionCommitted (txn : MemoryTransaction)
    : Eff W unit :=
  let changeBuffer := newChangeBuffer in
  let! orphans := orphanedDocuments in
  let! changeBuffer :=
    PersistencePromise.forEach orphans
      (fun key changeBuffer =>
         let! isReferenced := isReferenced txn key in
         if negb isReferenced
         then ret (removeEntry key changeBuffer)
         else ret changeBuffer)
      changeBuffer in
  set_orphanedDocuments None >>
  apply changeBuffer txn.

Definition updateLimboDocument (txn : MemoryTransaction)
    (key : DocumentKey) : Eff W unit :=
  let! isReferenced := isReferenced txn key in
  if isReferenced : bool
  then orphanedDocuments_delete key
  else orphanedDocuments_add key.

(** For eager GC there are no size thresholds. *)
Definition documentSize {MaybeDocument : Type} (doc : MaybeDocument) : Z :=
  0.

End MemoryEagerDelegate.

(** ** The LRU reference delegate *)
Module MemoryLruDelegate.

(** [orphanedSequenceNumbers] is an [ObjectMap] keyed by the encoded
    resource path of the key, so its entries are found by path.  The
    [garbageCollector] field, an external collector driving this
    delegate, is not part of the state. *)
Record t : Type :=
  { inMemoryPins : option ReferenceSet.t;
    orphanedSequenceNumbers : gmap (list string) Z }.

Definition new : t :=
  {| inMemoryPins := None; orphanedSequenceNumbers := ∅ |}.

Local Abbreviation W := (World t).

(** No-ops, present so memory persistence doesn't have to care which
    delegate it has. *)
Definition onTransactionStarted : Eff W unit := ret tt.

Definition onTransactionCommitted (txn : MemoryTransaction)
    : Eff W unit :=
  PersistencePromise.resolve tt.

Definition setInMemoryPins (pins : ReferenceSet.t) : Eff W unit :=
  update (fun p =>
    set_referenceDelegate
      {| inMemoryPins := Some pins;
         orphanedSequenceNumbers :=
           orphanedSequenceNumbers (referenceDelegate p) |} p).

(** [this.orphanedSequenceNumbers.set(key, n)] *)
Definition orphanedSequenceNumbers_set (key : DocumentKey)
    (n : ListenSequenceNumber) : Eff W unit :=
  update (fun p =>
    set_referenceDelegate
      {| inMemoryPins := inMemoryPins (referenceDelegate p);
         orphanedSequenceNumbers :=
           <[path key := n]>
             (orphanedSequenceNumbers (referenceDelegate p)) |} p).

(** [this.orphanedSequenceNumbers.get(key)]; [None] is [undefined]. *)
Definition orphanedSequenceNumbers_get (key : DocumentKey)
    : Eff W (option ListenSequenceNumber) :=
  record (OrphanedSequenceNumbers_get (path key)) >>
  gets (fun w =>
          orphanedSequenceNumbers (referenceDelegate (store w))
            !! path key).

Definition isPinned (txn : MemoryTransaction) (key : DocumentKey)
    (upperBound : ListenSequenceNumber) : Eff W bool :=
  PersistencePromise.or
    [ mutationQueuesContainKey txn key;
      InMemoryPins_query
        (fun w => inMemoryPins (referenceDelegate (store w))) key;
      MemoryTargetCache_containsKey txn key;
      (let! orphanedAt := orphanedSequenceNumbers_get key in
       PersistencePromise.resolve
         match orphanedAt with
         | Some orphanedAt => bool_decide (orphanedAt > upperBound)
         | None => false
         end) ].

Definition removeOrphanedDocuments (txn : MemoryTransaction)
    (upperBound : ListenSequenceNumber) : Eff W Z :=
  let count := 0 in
  let changeBuffer := newChangeBuffer in
  let! locals :=
    forEachDocumentKey txn
      (fun key locals =>
         let! isPinned := isPinned txn key upperBound in
         if negb isPinned
         then ret (locals.1 + 1, removeEntry key locals.2)
         else ret locals)
      (count, changeBuffer) in
  apply locals.2 txn >>
  ret locals.1.

Definition removeMutationReference (txn : MemoryTransaction)
    (key : DocumentKey) : Eff W unit :=
  orphanedSequenceNumbers_set key (currentSequenceNumber txn) >>
  PersistencePromise.resolve tt.

Definition removeTarget (txn : MemoryTransaction)
    (targetData : TargetData) : Eff W unit :=
  let updated :=
    withSequenceNumber (currentSequenceNumber txn) targetData in
  updateTargetData txn updated.

Definition addReference (txn : MemoryTransaction) (key : DocumentKey)
    : Eff W unit :=
  orphanedSequenceNumbers_set key (currentSequenceNumber txn) >>
  PersistencePromise.resolve tt.

Definition removeReference (txn : MemoryTransaction) (key : DocumentKey)
    : Eff W unit :=
  orphanedSequenceNumbers_set key (currentSequenceNumber txn) >>
  PersistencePromise.resolve tt.

Definition updateLimboDocument (txn : MemoryTransaction)
    (key : DocumentKey) : Eff W unit :=
  orphanedSequenceNumbers_set key (currentSequenceNumber txn) >>
  PersistencePromise.resolve tt.

(** The entries of [orphanedSequenceNumbers] hold the key object last
    passed to [set]; the state keeps the path only, so the identity of
    that object is the parameter [entryOid].  The entries are visited in
    the order in which the map enumerates them.  [f] is the callback of
    the collector, which updates the variables it captured. *)
Definition forEachOrphanedDocumentSequenceNumber {L} (entryOid : list string -> nat)
    (txn : MemoryTransaction) (f : ListenSequenceNumber -> L -> L)
    (locals : L) : Eff W L :=
  fun w =>
    PersistencePromise.forEach
      (map_to_list (orphanedSequenceNumbers (referenceDelegate (store w))))
      (fun entry locals =>
         let key := {| oid := entryOid entry.1; path := entry.1 |} in
         let sequenceNumber := entry.2 in
         (* Pass in the exact sequence number as the upper bound so we know
            it won't be pinned by being too recent. *)
         let! isPinned := isPinned txn key sequenceNumber in
         if negb isPinned
         then ret (f sequenceNumber locals)
         else PersistencePromise.resolve locals)
      locals w.

Definition orphanedDocumentCount (entryOid : list string -> nat)
    (txn : MemoryTransaction) : Eff W Z :=
  let orphanedCount := 0 in
  forEachOrphanedDocumentSequenceNumber entryOid txn
    (fun _ orphanedCount => orphanedCount + 1) orphanedCount.

(** Modelled from the spec: [getTargetCount] of the target cache, the
    number of targets it holds. *)
Definition getTargetCount (txn : MemoryTransaction) : Eff W Z :=
  gets (fun w => Z.of_nat (size (targets (targetCache (store w))))).

Definition getSequenceNumberCount (entryOid : list string -> nat)
    (txn : MemoryTransaction) : Eff W Z :=
  fun w =>
    let docCountPromise := orphanedDocumentCount entryOid txn w in
    match getTargetCount txn docCountPromise.2 with
    | (Normal targetCount, w') =>
        match docCountPromise.1 with
        | Normal docCount => (Normal (targetCount + docCount), w')
        | Abrupt e => (Abrupt e, w')
        end
    | (Abrupt e, w') => (Abrupt e, w')
    end.

End MemoryLruDelegate.

(** ** The delegate interface and [runTransaction] *)

(** The hooks of [MemoryReferenceDelegate] (and of [ReferenceDelegate],
    which it extends) that the coordinator and the caches call. *)
Class MemoryReferenceDelegate (D : Type) : Type :=
  { onTransactionStarted : Eff (World D) unit;
    onTransactionCommitted : MemoryTransaction -> Eff (World D) unit;
    addReference : MemoryTransaction -> DocumentKey -> Eff (World D) unit;
    removeReference : MemoryTransaction -> DocumentKey -> Eff (World D) unit;
    removeMutationReference :
      MemoryTransaction -> DocumentKey -> Eff (World D) unit;
    removeTarget : MemoryTransaction -> TargetData -> Eff (World D) unit;
    updateLimboDocument :
      MemoryTransaction -> DocumentKey -> Eff (World D) unit }.

Global Instance eager_delegate : MemoryReferenceDelegate MemoryEagerDelegate.t :=
  {| onTransactionStarted := MemoryEagerDelegate.onTransactionStarted;
     onTransactionCommitted := MemoryEagerDelegate.onTransactionCommitted;
     addReference := MemoryEagerDelegate.addReference;
     removeReference := MemoryEagerDelegate.removeReference;
     removeMutationReference := MemoryEagerDelegate.removeMutationReference;
     removeTarget := MemoryEagerDelegate.removeTarget;
     updateLimboDocument := MemoryEagerDelegate.updateLimboDocument |}.

Global Instance lru_delegate : MemoryReferenceDelegate MemoryLruDelegate.t :=
  {| onTransactionStarted := MemoryLruDelegate.onTransactionStarted;
     onTransactionCommitted := MemoryLruDelegate.onTransactionCommitted;
     addReference := MemoryLruDelegate.addReference;
     removeReference := MemoryLruDelegate.removeReference;
     removeMutationReference := MemoryLruDelegate.removeMutationReference;
     removeTarget := MemoryLruDelegate.removeTarget;
     updateLimboDocument := MemoryLruDelegate.updateLimboDocument |}.

Inductive PersistenceTransactionMode : Type :=
  | readonly | readwrite | readwrite_primary.

Section RunTransaction.
Context {D : Type} `{MemoryReferenceDelegate D}.

(** Modelled from the spec: [ListenSequence.next], the sequence
    generator: each call returns the successor of the previous value. *)
Definition ListenSequence_next : Eff (World D) ListenSequenceNumber :=
  update (fun p => set_listenSequence (listenSequence p + 1) p) >>
  gets (fun w => listenSequence (store w)).

(** Modelled from the spec: [raiseOnCommittedEvent], the post-commit
    event of the transaction. *)
Definition raiseOnCommittedEvent (txn : MemoryTransaction)
    : Eff (World D) unit :=
  record (OnCommittedEvent (currentSequenceNumber txn)).

Definition runTransaction {T} (action : string)
    (mode : PersistenceTransactionMode)
    (transactionOperation : MemoryTransaction -> Eff (World D) T)
    : Eff (World D) T :=
  let! sequenceNumber := ListenSequence_next in
  let txn := {| currentSequenceNumber := sequenceNumber |} in
  onTransactionStarted >>
  let! result := transactionOperation txn in
  onTransactionCommitted txn >>
  raiseOnCommittedEvent txn >>
  ret result.
End RunTransaction.

(** ** The persistence provider *)

Definition LOG_TAG : string := "MemoryPersistence".

Definition MEMORY_ONLY_PERSISTENCE_ERROR_MESSAGE : string :=
  "You are using the memory-only build of Firestore. Persistence support is " +:+
  "only available via the @firebase/firestore bundle or the " +:+
  "firebase-firestore.js build.".

(** An object implementing [MemoryReferenceDelegate]: an instance of one
    of the two delegate classes. *)
Inductive AnyReferenceDelegate : Type :=
  | EagerDelegate (d : MemoryEagerDelegate.t)
  | LruDelegate (d : MemoryLruDelegate.t).

(** The classes whose instances make up the persistence layer; the world
    of the provider records each construction. *)
Inductive ClassName : Type :=
  | C_MemoryPersistence | C_MemoryEagerDelegate | C_MemoryLruDelegate
  | C_ListenSequence | C_MemoryTargetCache | C_MemoryIndexManager
  | C_MemoryRemoteDocumentCache | C_MemorySharedClientState
  | C_IndexFreeQueryEngine | C_LocalStore | C_SyncEngine.

(** Modelled from the spec: [PersistenceSettings] of
    [core/firestore_client.ts]; [durable] requests disk-backed storage. *)
Record PersistenceSettings : Type := { durable : bool }.

Section Provider.

(** The collaborators of the provider live outside this file: their
    types and constructors are parameters, and what a constructor does to
    the objects it is handed is not modelled. *)
Variables AsyncQueue RemoteStore DatabaseInfo Platform ClientId User : Type.
Variables LocalStore SyncEngine MemorySharedClientState
          IndexFreeQueryEngine : Type.
Variable new_MemorySharedClientState : MemorySharedClientState.
Variable new_IndexFreeQueryEngine : IndexFreeQueryEngine.
Variable new_LocalStore : IndexFreeQueryEngine -> User -> LocalStore.
Variable new_SyncEngine :
  LocalStore -> RemoteStore -> MemorySharedClientState -> User -> Z ->
  SyncEngine.

(** The fields of the provider are declared with a definite-assignment
    assertion and are [undefined] until [initialize] assigns them. *)
Record MemoryPersistenceProvider : Type :=
  { clientId : option ClientId;
    localStore : option LocalStore;
    persistence : option (MemoryPersistence AnyReferenceDelegate);
    syncEngine : option SyncEngine;
    sharedClientState : option MemorySharedClientState }.

Definition new_MemoryPersistenceProvider : MemoryPersistenceProvider :=
  {| clientId := None; localStore := None; persistence := None;
     syncEngine := None; sharedClientState := None |}.

(** The provider, the [syncEngine] field of the remote store handed to
    [initialize], and the constructions performed so far. *)
Record ProviderWorld : Type :=
  { this : MemoryPersistenceProvider;
    remoteStore_syncEngine : option SyncEngine;
    constructed : list ClassName }.

Definition construct (c : ClassName) : Eff ProviderWorld unit :=
  modify (fun w =>
    {| this := this w;
       remoteStore_syncEngine := remoteStore_syncEngine w;
       constructed := (constructed w ++ [c])%list |}).

Definition assign (f : MemoryPersistenceProvider -> MemoryPersistenceProvider)
    : Eff ProviderWorld unit :=
  modify (fun w =>
    {| this := f (this w);
       remoteStore_syncEngine := remoteStore_syncEngine w;
       constructed := constructed w |}).

(** The constructor of [MemoryPersistence]: the field initialisers, then
    the body, which calls the delegate factory first. *)
Definition MemoryPersistence_new {D}
    (referenceDelegateFactory : Eff ProviderWorld D)
    : Eff ProviderWorld (MemoryPersistence D) :=
  construct C_MemoryPersistence >>
  construct C_ListenSequence >>
  let! referenceDelegate := referenceDelegateFactory in
  construct C_MemoryTargetCache >>
  construct C_MemoryIndexManager >>
  construct C_MemoryRemoteDocumentCache >>
  ret {| mutationQueues := [];
         remoteDocumentCache := {| docs := ∅ |};
         targetCache := {| targets := ∅; references := [] |};
         listenSequence := 0;
         _started := true;
         referenceDelegate := referenceDelegate |}.

Definition initialize (asyncQueue : AsyncQueue) (remoteStore : RemoteStore)
    (databaseInfo : DatabaseInfo) (platform : Platform)
    (clientId' : ClientId) (initialUser : User)
    (maxConcurrentLimboResolutions : Z) (settings : PersistenceSettings)
    : Eff ProviderWorld unit :=
  if durable settings then
    throw (FirestoreError FAILED_PRECONDITION
             MEMORY_ONLY_PERSISTENCE_ERROR_MESSAGE)
  else
    assign (fun p =>
      {| clientId := Some clientId'; localStore := localStore p;
         persistence := persistence p; syncEngine := syncEngine p;
         sharedClientState := sharedClientState p |}) >>
    let! persistence' :=
      MemoryPersistence_new
        (construct C_MemoryEagerDelegate >>
         ret (EagerDelegate MemoryEagerDelegate.new)) in
    assign (fun p =>
      {| clientId := clientId p; localStore := localStore p;
         persistence := Some persistence'; syncEngine := syncEngine p;
         sharedClientState := sharedClientState p |}) >>
    construct C_MemorySharedClientState >>
    let sharedClientState' := new_MemorySharedClientState in
    assign (fun p =>
      {| clientId := clientId p; localStore := localStore p;
         persistence := persistence p; syncEngine := syncEngine p;
         sharedClientState := Some sharedClientState' |}) >>
    construct C_IndexFreeQueryEngine >>
    construct C_LocalStore >>
    let localStore' := new_LocalStore new_IndexFreeQueryEngine initialUser in
    assign (fun p =>
      {| clientId := clientId p; localStore := Some localStore';
         persistence := persistence p; syncEngine := syncEngine p;
         sharedClientState := sharedClientState p |}) >>
    construct C_SyncEngine >>
    let syncEngine' :=
      new_SyncEngine localStore' remoteStore sharedClientState'
        initialUser maxConcurrentLimboResolutions in
    assign (fun p =>
      {| clientId := clientId p; localStore := localStore p;
         persistence := persistence p; syncEngine := Some syncEngine';
         sharedClientState := sharedClientState p |}) >>
    modify (fun w =>
      {| this := this w;
         remoteStore_syncEngine := Some syncEngine';
         constructed := constructed w |}) >>
    ret tt.

(** [assert(!!this.persistence, ...)] followed by the field read. *)
Definition getPersistence
    : Eff ProviderWorld (MemoryPersistence AnyReferenceDelegate) :=
  fun w =>
    match persistence (this w) with
    | Some p => ret p w
    | None => fail "initialize() not called" w
    end.

(** [clearPersistence(): never] *)
Definition clearPersistence : Eff ProviderWorld Empty_set :=
  throw (FirestoreError FAILED_PRECONDITION
           MEMORY_ONLY_PERSISTENCE_ERROR_MESSAGE).
Definition getSharedClientState : Eff ProviderWorld MemorySharedClientState :=
  fun w =>
    match sharedClientState (this w) with
    | Some s => ret s w
    | None => fail "initialize() not called" w
    end.

Definition getLocalStore : Eff ProviderWorld LocalStore :=
  fun w =>
    match localStore (this w) with
    | Some s => ret s w
    | None => fail "initialize() not called" w
    end.

Definition getSyncEngine : Eff ProviderWorld SyncEngine :=
  fun w =>
    match syncEngine (this w) with
    | Some s => ret s w
    | None => fail "initialize() not called" w
    end.
End Provider.
Arguments clientId {_ _ _ _} _.
Arguments localStore {_ _ _ _} _.
Arguments persistence {_ _ _ _} _.
Arguments syncEngine {_ _ _ _} _.
Arguments sharedClientState {_ _ _ _} _.
Arguments this {_ _ _ _} _.
Arguments remoteStore_syncEngine {_ _ _ _} _.
Arguments constructed {_ _ _ _} _.
Arguments getPersistence {_ _ _ _} _.
Arguments clearPersistence {_ _ _ _} _.
Arguments getSharedClientState {_ _ _ _} _.
Arguments getLocalStore {_ _ _ _} _.
Arguments getSyncEngine {_ _ _ _} _.
Arguments new_MemoryPersistenceProvider {_ _ _ _}.

(** ** The garbage-collection scheduler of the provider

    [getGarbageCollectionScheduler] declares a local variable [started]
    and returns an object literal whose property [started] is initialised
    from it; the arrow functions [start] and [stop] close over the local
    variable.  The object and the captured variable are distinct
    locations. *)
Module GarbageCollectionScheduler.
Record t : Type :=
  { started : bool;            (* the property of the returned object *)
    captured_started : bool    (* the local variable of the closures *) }.

(** [start: () => (started = true)]: assigns the captured variable; the
    value of the assignment is the value of the call. *)
Definition start (scheduler : t) : bool * t :=
  (true, {| started := started scheduler; captured_started := true |}).

(** [stop: () => (started = false)] *)
Definition stop (scheduler : t) : bool * t :=
  (false, {| started := started scheduler; captured_started := false |}).
End GarbageCollectionScheduler.

Definition getGarbageCollectionScheduler : GarbageCollectionScheduler.t :=
  let started := false in
  {| GarbageCollectionScheduler.started := started;
     GarbageCollectionScheduler.captured_started := started |}.

(** ** Observations

    Pure readings of a world, used to state what the operations compute.
    [logged cs w] is [w] after the calls [cs] were recorded: the two worlds
    hold the same store. *)
Definition logged {D} (cs : list Call) (w : World D) : World D :=
  {| store := store w; calls := (calls w ++ cs)%list |}.

(** What the queues answer, and the queries made for it: one per queue,
    up to and including the first queue that holds the key. *)
Definition queuesContainKey (key : DocumentKey)
    (queues : list (string * MemoryMutationQueue)) : bool :=
  existsb
    (fun uq => ReferenceSet.containsKey key (batchesByDocumentKey uq.2))
    queues.

Fixpoint queueCalls (key : DocumentKey)
    (queues : list (string * MemoryMutationQueue)) : list Call :=
  match queues with
  | [] => []
  | uq :: rest =>
      MutationQueue_containsKey uq.1 (path key) ::
      (if ReferenceSet.containsKey key (batchesByDocumentKey uq.2)
       then [] else queueCalls key rest)
  end.

(** The fourth predicate of [isPinned]: the key has an orphan sequence
    number, and it is greater than the upper bound. *)
Definition orphanedAfter (upperBound : ListenSequenceNumber)
    (key : DocumentKey) (d : MemoryLruDelegate.t) : bool :=
  match MemoryLruDelegate.orphanedSequenceNumbers d !! path key with
  | Some orphanedAt => bool_decide (orphanedAt > upperBound)
  | None => false
  end.

(** ** Sample worlds

    Two users with a mutation queue each, two resident documents
    [rooms/a] and [rooms/b], one target (id 7) matching [rooms/b]. *)
Module Sample.
Definition roomA : DocumentKey := {| oid := 1; path := ["rooms"; "a"] |}.
Definition roomA' : DocumentKey := {| oid := 2; path := ["rooms"; "a"] |}.
Definition roomB : DocumentKey := {| oid := 3; path := ["rooms"; "b"] |}.

Definition target7 : TargetData :=
  {| targetId := 7; sequenceNumber := 3 |}.

Definition coordinator {D} (delegate : D) : MemoryPersistence D :=
  {| mutationQueues :=
       [("uid:alice", {| batchesByDocumentKey := [] |});
        ("anonymous-user", {| batchesByDocumentKey := [] |})];
     remoteDocumentCache :=
       {| docs := <[ ["rooms"; "a"] := 1%nat ]>
                    (<[ ["rooms"; "b"] := 3%nat ]> ∅) |};
     targetCache :=
       {| targets := <[ 7 := target7 ]> ∅;
          references := [ {| ref_key := roomB; targetOrBatchId := 7 |} ] |};
     listenSequence := 10;
     _started := true;
     referenceDelegate := delegate |}.

(** An LRU world in which [rooms/a] was orphaned at sequence 5. *)
Definition lru : World MemoryLruDelegate.t :=
  {| store :=
       coordinator
         {| MemoryLruDelegate.inMemoryPins := Some [];
            MemoryLruDelegate.orphanedSequenceNumbers :=
              <[ ["rooms"; "a"] := 5 ]> ∅ |};
     calls := [] |}.

(** An eager world in the middle of a transaction. *)
Definition eager (orphans : option JsSet.t) : World MemoryEagerDelegate.t :=
  {| store :=
       coordinator
         {| MemoryEagerDelegate.inMemoryPins := Some [];
            MemoryEagerDelegate._orphanedDocuments := orphans |};
     calls := [] |}.

Definition txn11 : MemoryTransaction := {| currentSequenceNumber := 11 |}.
End Sample.

(** The value of [isPinned] once a pin set is installed. *)
Definition pinnedBy (pins : ReferenceSet.t)
    (p : MemoryPersistence MemoryLruDelegate.t)
    (upperBound : ListenSequenceNumber) (key : DocumentKey) : bool :=
  queuesContainKey key (mutationQueues p)
  || ReferenceSet.containsKey key pins
  || ReferenceSet.containsKey key (references (targetCache p))
  || orphanedAfter upperBound key (referenceDelegate p).

(** The reference events that the caches report for a key, and their
    dispatch to the active delegate. *)
Inductive ReferenceEvent : Type :=
  | AddReference | RemoveReference | RemoveMutationReference
  | UpdateLimboDocument.

Definition fire {D} `{MemoryReferenceDelegate D} (e : ReferenceEvent)
    (txn : MemoryTransaction) (key : DocumentKey) : Eff (World D) unit :=
  match e with
  | AddReference => addReference txn key
  | RemoveReference => removeReference txn key
  | RemoveMutationReference => removeMutationReference txn key
  | UpdateLimboDocument => updateLimboDocument txn key
  end.

(** The value of [isReferenced] of the eager delegate once a pin set is
    installed. *)
Definition referencedBy (pins : ReferenceSet.t)
    (p : MemoryPersistence MemoryEagerDelegate.t) (key : DocumentKey) : bool :=
  ReferenceSet.containsKey key (references (targetCache p))
  || queuesContainKey key (mutationQueues p)
  || ReferenceSet.containsKey key pins.

(** A call of the caches into the delegate during a transaction. *)
Inductive DelegateCall : Type :=
  | OnKey (e : ReferenceEvent) (key : DocumentKey)
  | RemoveTarget (targetData : TargetData).

Definition call {D} `{MemoryReferenceDelegate D} (txn : MemoryTransaction)
    (c : DelegateCall) : Eff (World D) unit :=
  match c with
  | OnKey e key => fire e txn key
  | RemoveTarget targetData => removeTarget txn targetData
  end.

(** The world after a sequence of such calls, whatever their outcomes. *)
Definition afterCalls {D} `{MemoryReferenceDelegate D}
    (txn : MemoryTransaction) (cs : list DelegateCall) (w : World D)
    : World D :=
  fold_left (fun w c => (call txn c w).2) cs w.

(** A world whose delegate has just been constructed. *)
Definition withNewDelegate {D} (d : D) (w : World D) : World D :=
  {| store := set_referenceDelegate d (store w); calls := calls w |}.

Definition scratchSetFailure : Error :=
  AssertionFailure "orphanedDocuments is only valid during a transaction.".

(** Calls of the methods of a scheduler object, and the object after a
    sequence of them. *)
Inductive SchedulerCall : Type := Start | Stop.

Definition afterSchedulerCalls (cs : list SchedulerCall)
    (scheduler : GarbageCollectionScheduler.t) : GarbageCollectionScheduler.t :=
  fold_left
    (fun scheduler c =>
       match c with
       | Start => (GarbageCollectionScheduler.start scheduler).2
       | Stop => (GarbageCollectionScheduler.stop scheduler).2
       end)
    cs scheduler.

(** The operations an LRU delegate is driven with: the calls of the
    caches, the commit hook and the sweeps of the collector, each with the
    transaction it runs in; and the world after a sequence of them,
    whatever their outcomes. *)
Inductive LruCall : Type :=
  | Delegate (c : DelegateCall)
  | Commit
  | Sweep (upperBound : ListenSequenceNumber).

Definition lruCall (c : MemoryTransaction * LruCall)
    (w : World MemoryLruDelegate.t) : World MemoryLruDelegate.t :=
  match c.2 with
  | Delegate d => (call c.1 d w).2
  | Commit => (MemoryLruDelegate.onTransactionCommitted c.1 w).2
  | Sweep upperBound =>
      (MemoryLruDelegate.removeOrphanedDocuments c.1 upperBound w).2
  end.

Definition afterLruCalls (cs : list (MemoryTransaction * LruCall))
    (w : World MemoryLruDelegate.t) : World MemoryLruDelegate.t :=
  fold_left (fun w c => lruCall c w) cs w.

(** Reachability of a key through the three reference sources. *)
Definition reachable (pins : ReferenceSet.t) {D}
    (p : MemoryPersistence D) (key : DocumentKey) : bool :=
  queuesContainKey key (mutationQueues p)
  || ReferenceSet.containsKey key pins
  || ReferenceSet.containsKey key (references (targetCache p)).

(** * Properties *)

Lemma Normal_inj {A} (a b : A) : Normal a = Normal b -> a = b.
Proof. by intros [= ->]. Qed.

(** ** Sequencing *)
Section BindLemmas.
Context {W A B : Type}.
Implicit Types (m : Eff W A) (k : A -> Eff W B).

Lemma bind_normal m k w a w' :
  m w = (Normal a, w') -> bind m k w = k a w'.
Proof. unfold bind. by intros ->. Qed.

Lemma bind_abrupt m k w e w' :
  m w = (Abrupt e, w') -> bind m k w = (Abrupt e, w').
Proof. unfold bind. by intros ->. Qed.
End BindLemmas.

(** ** The lazy disjunction *)
Section OrLemmas.
Context {W : Type}.
Implicit Types (p acc : Eff W bool) (ps : list (Eff W bool)) (w : W).

Local Abbreviation step :=
  (fun p predicate =>
     PersistencePromise.next p (fun isTrue =>
       if isTrue : bool then PersistencePromise.resolve isTrue
       else predicate)).

Lemma or_fold ps : forall acc w,
  fold_left step ps acc w =
  match acc w with
  | (Normal true, w') => (Normal true, w')
  | (Normal false, w') =>
      fold_left step ps (PersistencePromise.resolve false) w'
  | (Abrupt e, w') => (Abrupt e, w')
  end.
Proof.
  induction ps as [|q ps IH]; intros acc w; simpl.
  - destruct (acc w) as [[[]|e] w']; reflexivity.
  - rewrite IH.
    unfold PersistencePromise.next, PersistencePromise.resolve, bind, ret.
    destruct (acc w) as [[[]|e] w']; try reflexivity.
    rewrite (IH (fun w0 => q w0)).
    destruct (q w') as [[[]|e] w'']; reflexivity.
Qed.

Lemma or_nil w : PersistencePromise.or [] w = (Normal false, w).
Proof. reflexivity. Qed.

(** The first predicate decides: true ends the evaluation, false hands
    over to the remaining predicates, a rejection is the outcome. *)
Lemma or_cons p ps w :
  PersistencePromise.or (p :: ps) w =
  match p w with
  | (Normal true, w') => (Normal true, w')
  | (Normal false, w') => PersistencePromise.or ps w'
  | (Abrupt e, w') => (Abrupt e, w')
  end.
Proof.
  unfold PersistencePromise.or. simpl. rewrite or_fold.
  unfold PersistencePromise.next, PersistencePromise.resolve, bind, ret.
  destruct (p w) as [[[]|e] w']; reflexivity.
Qed.
End OrLemmas.

(** ** Worlds that differ by recorded calls only *)
Section Logged.
Context {D : Type}.
Implicit Types (w : World D) (cs : list Call).

Lemma logged_nil w : logged [] w = w.
Proof. destruct w; unfold logged; simpl. by rewrite app_nil_r. Qed.

Lemma logged_logged cs1 cs2 w :
  logged cs2 (logged cs1 w) = logged (cs1 ++ cs2)%list w.
Proof. unfold logged; simpl. by rewrite app_assoc. Qed.

Lemma store_logged cs w : store (logged cs w) = store w.
Proof. reflexivity. Qed.

Lemma queues_or txn key queues : forall w,
  PersistencePromise.or
    (map (fun uq => MemoryMutationQueue_containsKey (D:=D) uq.1 uq.2 txn key)
         queues) w =
  (Normal (queuesContainKey key queues), logged (queueCalls key queues) w).
Proof.
  induction queues as [|[user queue] rest IH]; intros w.
  - cbn [map]. rewrite or_nil, logged_nil. reflexivity.
  - rewrite map_cons, or_cons. cbn.
    destruct (ReferenceSet.containsKey key (batchesByDocumentKey queue)).
    + reflexivity.
    + rewrite IH. cbn. f_equal. unfold logged; cbn.
      by rewrite <- app_assoc.
Qed.

Lemma mutationQueuesContainKey_spec txn key w :
  mutationQueuesContainKey txn key w =
  (Normal (queuesContainKey key (mutationQueues (store w))),
   logged (queueCalls key (mutationQueues (store w))) w).
Proof. unfold mutationQueuesContainKey. apply queues_or. Qed.

Lemma targetCache_containsKey_spec txn key w :
  MemoryTargetCache_containsKey txn key w =
  (Normal (ReferenceSet.containsKey key
             (references (targetCache (store w)))),
   logged [TargetCache_containsKey (path key)] w).
Proof. reflexivity. Qed.
End Logged.

(** ** Reachability checks of the two delegates *)
Section Reachability.
Implicit Types (txn : MemoryTransaction) (key : DocumentKey).

Lemma InMemoryPins_query_spec {D} (get : World D -> option ReferenceSet.t)
    key (w : World D) :
  InMemoryPins_query get key w =
  match get w with
  | Some pins =>
      (Normal (ReferenceSet.containsKey key pins),
       logged [InMemoryPins_containsKey (path key)] w)
  | None => (Abrupt pinsNull, w)
  end.
Proof. unfold InMemoryPins_query. destruct (get w); reflexivity. Qed.

(** [isPinned] on every world: the queues are asked first; only when none
    holds the key is the pin set touched, which must then be there. *)
Lemma isPinned_eval txn key upperBound (w : World MemoryLruDelegate.t) :
  let queues := mutationQueues (store w) in
  let d := referenceDelegate (store w) in
  MemoryLruDelegate.isPinned txn key upperBound w =
  if queuesContainKey key queues
  then (Normal true, logged (queueCalls key queues) w)
  else
    match MemoryLruDelegate.inMemoryPins d with
    | None => (Abrupt pinsNull, logged (queueCalls key queues) w)
    | Some pins =>
        let b := ReferenceSet.containsKey key pins in
        let c := ReferenceSet.containsKey key
                   (references (targetCache (store w))) in
        (Normal (b || c || orphanedAfter upperBound key d),
         logged
           (queueCalls key queues ++
            InMemoryPins_containsKey (path key) ::
            if b then [] else
              TargetCache_containsKey (path key) ::
              if c then [] else [OrphanedSequenceNumbers_get (path key)])
           w)
    end.
Proof.
  intros queues d. unfold MemoryLruDelegate.isPinned.
  rewrite or_cons, mutationQueuesContainKey_spec. fold queues.
  destruct (queuesContainKey key queues); [reflexivity|].
  rewrite or_cons, InMemoryPins_query_spec, store_logged.
  fold d. destruct (MemoryLruDelegate.inMemoryPins d) as [pins|];
    [|reflexivity].
  destruct (ReferenceSet.containsKey key pins).
  { rewrite logged_logged. reflexivity. }
  rewrite or_cons, targetCache_containsKey_spec, !store_logged.
  destruct (ReferenceSet.containsKey key _).
  { rewrite !logged_logged, <- ?app_assoc. reflexivity. }
  rewrite or_cons. cbn. fold d. unfold orphanedAfter, logged. cbn.
  destruct (MemoryLruDelegate.orphanedSequenceNumbers d !! path key)
    as [o|]; [destruct (bool_decide (o > upperBound))|];
    rewrite <- ?app_assoc; reflexivity.
Qed.

(** [isReferenced] of the eager delegate on every world. *)
Lemma isReferenced_eval txn key (w : World MemoryEagerDelegate.t) :
  let queues := mutationQueues (store w) in
  let hit := TargetCache_containsKey (path key) in
  if ReferenceSet.containsKey key (references (targetCache (store w)))
  then MemoryEagerDelegate.isReferenced txn key w =
       (Normal true, logged [hit] w)
  else if queuesContainKey key queues
  then MemoryEagerDelegate.isReferenced txn key w =
       (Normal true, logged (hit :: queueCalls key queues) w)
  else
    match MemoryEagerDelegate.inMemoryPins (referenceDelegate (store w)) with
    | None =>
        MemoryEagerDelegate.isReferenced txn key w =
        (Abrupt pinsNull, logged (hit :: queueCalls key queues) w)
    | Some pins =>
        MemoryEagerDelegate.isReferenced txn key w =
        (Normal (ReferenceSet.containsKey key pins),
         logged (hit :: queueCalls key queues ++
                 [InMemoryPins_containsKey (path key)]) w)
    end.
Proof.
  intros queues hit. unfold MemoryEagerDelegate.isReferenced.
  rewrite or_cons, targetCache_containsKey_spec.
  destruct (ReferenceSet.containsKey key _); [reflexivity|].
  rewrite or_cons, mutationQueuesContainKey_spec, store_logged.
  fold queues.
  destruct (queuesContainKey key queues).
  { rewrite logged_logged. reflexivity. }
  rewrite or_cons, InMemoryPins_query_spec, !store_logged.
  destruct (MemoryEagerDelegate.inMemoryPins _) as [pins|].
  - destruct (ReferenceSet.containsKey key pins);
      rewrite ?or_nil; unfold logged; cbn; rewrite <- ?app_assoc;
      reflexivity.
  - rewrite logged_logged. reflexivity.
Qed.
End Reachability.

(** ** [isPinned] is a lazy disjunction in a fixed order *)

(** C3. With a pin set installed, [isPinned txn key upperBound] of the LRU
    delegate resolves to the disjunction of (a) some mutation queue
    contains the key, (b) the in-memory pin set contains it, (c) the target
    cache contains it, (d) the key has an orphan sequence number strictly
    greater than [upperBound].  The recorded calls show the order (a), (b),
    (c), (d) and that nothing is asked after the first predicate that
    answers true; a key without an orphan sequence number for which (a),
    (b) and (c) are false is not pinned. *)
Theorem isPinned_lazy_or (w : World MemoryLruDelegate.t)
    (txn : MemoryTransaction) (key : DocumentKey)
    (upperBound : ListenSequenceNumber) (pins : ReferenceSet.t) :
  MemoryLruDelegate.inMemoryPins (referenceDelegate (store w)) = Some pins ->
  let a := queuesContainKey key (mutationQueues (store w)) in
  let b := ReferenceSet.containsKey key pins in
  let c := ReferenceSet.containsKey key (references (targetCache (store w))) in
  let orphanedAt :=
    MemoryLruDelegate.orphanedSequenceNumbers (referenceDelegate (store w))
      !! path key in
  let d := match orphanedAt with
           | Some orphanedAt => bool_decide (orphanedAt > upperBound)
           | None => false
           end in
  MemoryLruDelegate.isPinned txn key upperBound w =
    (Normal (a || b || c || d),
     logged
       (queueCalls key (mutationQueues (store w)) ++
        if a then [] else
          InMemoryPins_containsKey (path key) ::
          if b then [] else
            TargetCache_containsKey (path key) ::
            if c then [] else [OrphanedSequenceNumbers_get (path key)])
       w)
  /\ (orphanedAt = None -> a = false -> b = false -> c = false ->
      (MemoryLruDelegate.isPinned txn key upperBound w).1 = Normal false).
Proof.
  intros Hpins a b c orphanedAt d.
  pose proof (isPinned_eval txn key upperBound w) as E. cbv zeta in E.
  rewrite Hpins in E. fold a b c in E.
  assert (Hd : orphanedAfter upperBound key (referenceDelegate (store w)) = d)
    by reflexivity.
  rewrite Hd in E. split.
  - rewrite E. destruct a; [|reflexivity].
    by rewrite app_nil_r.
  - intros Ho Ha Hb Hc. rewrite E. subst d. rewrite Ho, Ha, Hb, Hc.
    reflexivity.
Qed.

Lemma isPinned_lazy_or_witness :
  MemoryLruDelegate.isPinned Sample.txn11 Sample.roomA 4 Sample.lru =
    (Normal true,
     logged [MutationQueue_containsKey "uid:alice" ["rooms"; "a"];
             MutationQueue_containsKey "anonymous-user" ["rooms"; "a"];
             InMemoryPins_containsKey ["rooms"; "a"];
             TargetCache_containsKey ["rooms"; "a"];
             OrphanedSequenceNumbers_get ["rooms"; "a"]] Sample.lru).
Proof.
  exact (proj1 (isPinned_lazy_or Sample.lru Sample.txn11 Sample.roomA 4 []
                  eq_refl)).
Defined.

(** ** Iteration and the change buffer *)
Section ForEach.
Context {D X L : Type}.
Implicit Types (f : X -> L -> Eff (World D) L) (xs : list X) (w : World D).

(** Callbacks that only record calls leave the store alone, whatever
    their outcome. *)
Lemma forEach_store f :
  (forall x l w, store (f x l w).2 = store w) ->
  forall xs l w, store (PersistencePromise.forEach xs f l w).2 = store w.
Proof.
  intros Hf. induction xs as [|x xs IH]; intros l w; [reflexivity|].
  cbn [PersistencePromise.forEach]. specialize (Hf x l w).
  destruct (f x l w) as [[l'|e] w']; cbn [snd] in *.
  - rewrite IH. exact Hf.
  - rewrite IH. exact Hf.
Qed.

(** A property of the locals kept by every resolved callback holds of
    the locals of a resolved iteration; the callbacks may rely on a
    property of the store, which they leave alone. *)
Lemma forEach_invariant f (P : MemoryPersistence D -> Prop) (I : L -> Prop)
    xs :
  (forall x l w, store (f x l w).2 = store w) ->
  (forall x l w l' w',
     x ∈ xs -> P (store w) -> I l -> f x l w = (Normal l', w') -> I l') ->
  forall l w l' w',
    P (store w) -> I l ->
    PersistencePromise.forEach xs f l w = (Normal l', w') -> I l'.
Proof.
  intros Hstore. induction xs as [|x xs IH]; intros Hf l w l' w' Hw Hl.
  - cbn. intros [= <- _]. exact Hl.
  - cbn [PersistencePromise.forEach].
    destruct (f x l w) as [[l1|e] w1] eqn:E; [|discriminate].
    apply IH.
    + intros x0 l0 w0 l0' w0' Hx0. apply Hf. by right.
    + specialize (Hstore x l w). rewrite E in Hstore. cbn in Hstore.
      by rewrite Hstore.
    + eapply Hf; eauto. by left.
Qed.

(** Callbacks that always resolve, to a value read off the store. *)
Lemma forEach_resolved (P : MemoryPersistence D -> Prop) f
    (g : MemoryPersistence D -> X -> L -> L) :
  (forall x l w, P (store w) ->
     exists cs, f x l w = (Normal (g (store w) x l), logged cs w)) ->
  forall xs l w, P (store w) ->
    exists cs,
      PersistencePromise.forEach xs f l w =
      (Normal (fold_left (fun l x => g (store w) x l) xs l), logged cs w).
Proof.
  intros Hf. induction xs as [|x xs IH]; intros l w Hw.
  - exists []. by rewrite logged_nil.
  - cbn [PersistencePromise.forEach fold_left].
    destruct (Hf x l w Hw) as [cs ->].
    destruct (IH (g (store w) x l) (logged cs w) Hw) as [cs' ->].
    exists (cs ++ cs')%list. by rewrite logged_logged.
Qed.
End ForEach.

Section ChangeBuffer.
Implicit Types (d : gmap (list string) nat) (buf : list DocumentKey).

Local Abbreviation deleteAll :=
  (fold_left (fun d key => delete (path key) d)).

Lemma deleteAll_lookup buf : forall d p,
  deleteAll buf d !! p =
  if decide (p ∈ path <$> buf) then None else d !! p.
Proof.
  induction buf as [|k buf IH]; intros d p; cbn [fold_left].
  - rewrite decide_False; [done|]. cbn. apply not_elem_of_nil.
  - rewrite IH, fmap_cons. destruct (decide (p ∈ path <$> buf)) as [Hin|Hin].
    + rewrite decide_True; [done|]. by right.
    + destruct (decide (p = path k)) as [->|Hne].
      * rewrite decide_True by left. apply lookup_delete_eq.
      * rewrite decide_False.
        -- by apply lookup_delete_ne.
        -- rewrite elem_of_cons. tauto.
Qed.

Lemma deleteAll_size buf : forall d,
  NoDup (path <$> buf) ->
  (forall k, k ∈ buf -> is_Some (d !! path k)) ->
  (size (deleteAll buf d) + length buf = size d)%nat.
Proof.
  induction buf as [|k buf IH]; intros d Hnd Hin; cbn [fold_left length].
  - lia.
  - rewrite fmap_cons in Hnd. apply NoDup_cons in Hnd as [Hk Hnd].
    rewrite Nat.add_succ_r, IH; [| done |].
    + rewrite map_size_delete_Some by (apply Hin; left).
      assert (size d <> 0)%nat; [|lia].
      intros Hz. apply map_size_empty_inv in Hz. subst d.
      destruct (Hin k) as [? Hs]; [left|]. by rewrite lookup_empty in Hs.
    + intros k' Hk'. rewrite lookup_delete_ne.
      * apply Hin. by right.
      * intros E. apply Hk. rewrite E. apply list_elem_of_fmap. eauto.
Qed.

Lemma NoDup_fmap_filter {A B} (h : A -> B) (P : A -> Prop)
    `{forall x, Decision (P x)} (l : list A) :
  NoDup (h <$> l) -> NoDup (h <$> filter P l).
Proof.
  induction l as [|x l IH]; [done|].
  rewrite fmap_cons, NoDup_cons. intros [Hx Hl].
  rewrite filter_cons. destruct (decide (P x)); [|auto].
  rewrite fmap_cons, NoDup_cons. split; [|auto].
  rewrite list_elem_of_fmap. intros (y & E & Hy%list_elem_of_filter).
  apply Hx. rewrite list_elem_of_fmap. exists y. tauto.
Qed.

Lemma documentKeys_paths (cache : MemoryRemoteDocumentCache) :
  path <$> documentKeys cache = (map_to_list (docs cache)).*1.
Proof.
  unfold documentKeys. rewrite <- list_fmap_compose.
  apply list_fmap_ext. by intros ? [].
Qed.

Lemma elem_of_documentKeys (cache : MemoryRemoteDocumentCache) key :
  key ∈ documentKeys cache <->
  docs cache !! path key = Some (oid key).
Proof.
  unfold documentKeys. rewrite list_elem_of_fmap. split.
  - intros ([p o] & -> & Hin). by apply elem_of_map_to_list in Hin.
  - intros Hl. exists (path key, oid key). split; [by destruct key|].
    by apply elem_of_map_to_list.
Qed.
End ChangeBuffer.

(** ** The LRU sweep *)
Section LruSweep.
Implicit Types (w : World MemoryLruDelegate.t) (txn : MemoryTransaction)
  (key : DocumentKey) (upperBound : ListenSequenceNumber)
  (pins : ReferenceSet.t).

Lemma isPinned_pinnedBy txn key upperBound w pins :
  MemoryLruDelegate.inMemoryPins (referenceDelegate (store w)) = Some pins ->
  exists cs,
    MemoryLruDelegate.isPinned txn key upperBound w =
    (Normal (pinnedBy pins (store w) upperBound key), logged cs w).
Proof.
  intros Hpins. rewrite isPinned_eval. cbv zeta. rewrite Hpins.
  unfold pinnedBy.
  destruct (queuesContainKey key (mutationQueues (store w))); eauto.
Qed.

(** Every predicate of [isPinned] looks the key up by its path. *)
Lemma pinnedBy_path pins (p : MemoryPersistence MemoryLruDelegate.t)
    upperBound key key' :
  path key = path key' ->
  pinnedBy pins p upperBound key = pinnedBy pins p upperBound key'.
Proof.
  intros E.
  unfold pinnedBy, queuesContainKey, orphanedAfter, ReferenceSet.containsKey.
  by rewrite E.
Qed.

Lemma sweep_fold (pinned : DocumentKey -> bool) (keys : list DocumentKey) :
  forall (n : Z) (buf : ChangeBuffer),
    fold_left
      (fun (l : Z * ChangeBuffer) key =>
         if negb (pinned key) then (l.1 + 1, removeEntry key l.2) else l)
      keys (n, buf) =
    (n + Z.of_nat (length (filter (fun k => pinned k = false) keys)),
     (buf ++ filter (fun k => pinned k = false) keys)%list).
Proof.
  induction keys as [|k keys IH]; intros n buf; cbn [fold_left].
  - cbn. f_equal; [lia | by rewrite app_nil_r].
  - rewrite filter_cons. destruct (pinned k) eqn:E; cbn [negb].
    + rewrite decide_False by done. apply IH.
    + rewrite decide_True by done. cbn [fst snd]. rewrite IH.
      unfold removeEntry. cbn [length]. f_equal; [lia|].
      by rewrite <- app_assoc.
Qed.

(** The sweep on a world with a pin set: the keys of the document cache
    for which [isPinned] is false are staged, the buffer is applied, and
    their number is returned. *)
Lemma removeOrphanedDocuments_eval txn upperBound w pins :
  MemoryLruDelegate.inMemoryPins (referenceDelegate (store w)) = Some pins ->
  let unpinned :=
    filter (fun k => pinnedBy pins (store w) upperBound k = false)
      (documentKeys (remoteDocumentCache (store w))) in
  exists cs,
    MemoryLruDelegate.removeOrphanedDocuments txn upperBound w =
    (Normal (Z.of_nat (length unpinned)),
     {| store :=
          set_remoteDocumentCache
            (applyChanges unpinned (remoteDocumentCache (store w)))
            (store w);
        calls := (calls w ++ cs)%list |}).
Proof.
  intros Hpins unpinned.
  destruct (forEach_resolved
    (fun p => MemoryLruDelegate.inMemoryPins (referenceDelegate p) = Some pins)
    (fun key (locals : Z * ChangeBuffer) =>
       let! isPinned := MemoryLruDelegate.isPinned txn key upperBound in
       if negb isPinned
       then ret (locals.1 + 1, removeEntry key locals.2)
       else ret locals)
    (fun p key (l : Z * ChangeBuffer) =>
       if negb (pinnedBy pins p upperBound key)
       then (l.1 + 1, removeEntry key l.2) else l))
    with
    (xs := documentKeys (remoteDocumentCache (store w)))
    (l := (0, newChangeBuffer)) (w := w) as [cs E]; [|done|].
  - intros x l w0 Hw0.
    destruct (isPinned_pinnedBy txn x upperBound w0 pins Hw0) as [cs E].
    exists cs. rewrite (bind_normal _ _ _ _ _ E).
    by destruct (pinnedBy pins (store w0) upperBound x).
  - exists cs. unfold MemoryLruDelegate.removeOrphanedDocuments.
    erewrite bind_normal; [|unfold forEachDocumentKey; exact E].
    rewrite (sweep_fold (pinnedBy pins (store w) upperBound)).
    reflexivity.
Qed.
End LruSweep.

(** C2. With a pin set installed, [removeOrphanedDocuments txn upperBound]
    of the LRU delegate resolves; it changes nothing but the document
    cache; every resident document whose key [isPinned] reports false for
    is deleted and every other one is kept as it was, so a key reachable
    through the target cache, a mutation queue or the pin set is never
    deleted, whatever its orphan sequence number; the value returned is
    the number of documents deleted. *)
Theorem removeOrphanedDocuments_sweep (w : World MemoryLruDelegate.t)
    (txn : MemoryTransaction) (upperBound : ListenSequenceNumber)
    (pins : ReferenceSet.t) :
  MemoryLruDelegate.inMemoryPins (referenceDelegate (store w)) = Some pins ->
  exists w',
    let before := docs (remoteDocumentCache (store w)) in
    let after := docs (remoteDocumentCache (store w')) in
    MemoryLruDelegate.removeOrphanedDocuments txn upperBound w =
      (Normal (Z.of_nat (size before) - Z.of_nat (size after)), w')
    /\ store w' =
       set_remoteDocumentCache (remoteDocumentCache (store w')) (store w)
    /\ (forall p, before !! p = None -> after !! p = None)
    /\ (forall p o, before !! p = Some o ->
          after !! p =
          match (MemoryLruDelegate.isPinned txn {| oid := o; path := p |}
                   upperBound w).1 with
          | Normal false => None
          | _ => Some o
          end)
    /\ (forall p o, before !! p = Some o ->
          let key := {| oid := o; path := p |} in
          ReferenceSet.containsKey key (references (targetCache (store w)))
            = true
          \/ queuesContainKey key (mutationQueues (store w)) = true
          \/ ReferenceSet.containsKey key pins = true ->
          after !! p = Some o).
Proof.
  intros Hpins.
  destruct (removeOrphanedDocuments_eval txn upperBound w pins Hpins)
    as [cs E].
  set (keys := documentKeys (remoteDocumentCache (store w))) in *.
  set (unpinned :=
         filter (fun k => pinnedBy pins (store w) upperBound k = false) keys)
    in *.
  cbv zeta in E.
  eexists. cbv zeta. split; [|split; [|split]].
  - rewrite E. do 2 f_equal.
    cbn [store set_remoteDocumentCache remoteDocumentCache applyChanges docs].
    pose proof (deleteAll_size unpinned
                  (docs (remoteDocumentCache (store w)))) as Hsize.
    rewrite <- Hsize; [lia | |].
    + apply NoDup_fmap_filter. unfold keys.
      rewrite documentKeys_paths. apply NoDup_fst_map_to_list.
    + intros k [_ Hk]%list_elem_of_filter.
      apply elem_of_documentKeys in Hk. eauto.
  - reflexivity.
  - intros p Hp.
    cbn [store set_remoteDocumentCache remoteDocumentCache applyChanges docs].
    rewrite deleteAll_lookup. by destruct (decide _).
  - assert (Hmain : forall p o,
      docs (remoteDocumentCache (store w)) !! p = Some o ->
      fold_left (fun d key => delete (path key) d) unpinned
        (docs (remoteDocumentCache (store w))) !! p =
      if pinnedBy pins (store w) upperBound {| oid := o; path := p |}
      then Some o else None).
    { intros p o Hp. rewrite deleteAll_lookup.
      destruct (pinnedBy pins (store w) upperBound {| oid := o; path := p |})
        eqn:Hpin.
      - rewrite decide_False; [done|].
        intros (k & Ek & [Hk _]%list_elem_of_filter)%list_elem_of_fmap.
        rewrite (pinnedBy_path _ _ _ k {| oid := o; path := p |}) in Hk
          by done.
        congruence.
      - rewrite decide_True; [done|].
        apply list_elem_of_fmap. exists {| oid := o; path := p |}.
        split; [done|]. apply list_elem_of_filter. split; [done|].
        by apply elem_of_documentKeys. }
    split.
    + intros p o Hp.
      cbn [store set_remoteDocumentCache remoteDocumentCache applyChanges docs].
      rewrite (Hmain p o Hp).
      destruct (isPinned_pinnedBy txn {| oid := o; path := p |} upperBound
                  w pins Hpins) as [cs' ->].
      cbn [fst]. by destruct (pinnedBy _ _ _ _).
    + intros p o Hp Hreach.
      cbn [store set_remoteDocumentCache remoteDocumentCache applyChanges docs].
      rewrite (Hmain p o Hp).
      assert (pinnedBy pins (store w) upperBound {| oid := o; path := p |}
              = true) as ->; [|done].
      unfold pinnedBy.
      destruct Hreach as [-> | [-> | ->]];
        rewrite ?orb_true_r; reflexivity.
Qed.

Lemma removeOrphanedDocuments_sweep_witness :
  exists w',
    MemoryLruDelegate.removeOrphanedDocuments Sample.txn11 10 Sample.lru =
      (Normal 1, w')
    /\ docs (remoteDocumentCache (store w')) !! ["rooms"; "a"] = None
    /\ docs (remoteDocumentCache (store w')) !! ["rooms"; "b"] = Some 3%nat.
Proof.
  pose proof (removeOrphanedDocuments_sweep Sample.lru Sample.txn11 10 []
                eq_refl) as H.
  destruct H as [w' H]. cbv zeta in H.
  destruct H as (E & _ & _ & Hdel & Hkeep).
  exists w'. split; [|split].
  - assert (C : (MemoryLruDelegate.removeOrphanedDocuments Sample.txn11 10
                   Sample.lru).1 = Normal 1) by (vm_compute; reflexivity).
    rewrite E in C. cbn [fst] in C. apply Normal_inj in C.
    rewrite E, C. reflexivity.
  - exact (Hdel ["rooms"; "a"] 1%nat eq_refl).
  - apply (Hkeep ["rooms"; "b"] 3%nat eq_refl). left. reflexivity.
Defined.


(** ** Retention by orphan sequence number *)
Section LruRetention.
Implicit Types (w : World MemoryLruDelegate.t) (txn : MemoryTransaction)
  (key : DocumentKey) (upperBound : ListenSequenceNumber).

Local Abbreviation sweepCallback txn upperBound :=
  (fun key (locals : Z * ChangeBuffer) =>
     let! isPinned := MemoryLruDelegate.isPinned txn key upperBound in
     if negb isPinned
     then ret (locals.1 + 1, removeEntry key locals.2)
     else ret locals).

Lemma isPinned_store txn key upperBound w :
  store (MemoryLruDelegate.isPinned txn key upperBound w).2 = store w.
Proof.
  rewrite isPinned_eval. cbv zeta.
  destruct (queuesContainKey _ _); [reflexivity|].
  destruct (MemoryLruDelegate.inMemoryPins _); reflexivity.
Qed.

(** A key whose orphan sequence number is greater than the upper bound is
    never reported as not pinned. *)
Lemma isPinned_not_false txn key upperBound w :
  orphanedAfter upperBound key (referenceDelegate (store w)) = true ->
  (MemoryLruDelegate.isPinned txn key upperBound w).1 <> Normal false.
Proof.
  intros Hd. rewrite isPinned_eval. cbv zeta. rewrite Hd.
  destruct (queuesContainKey _ _); [done|].
  destruct (MemoryLruDelegate.inMemoryPins _); [|done].
  cbn [fst]. rewrite !orb_true_r. done.
Qed.

Lemma sweepCallback_store txn upperBound key (l : Z * ChangeBuffer) w :
  store (sweepCallback txn upperBound key l w).2 = store w.
Proof.
  pose proof (isPinned_store txn key upperBound w) as Hs. unfold bind.
  destruct (MemoryLruDelegate.isPinned txn key upperBound w) as [[[]|e] w'];
    exact Hs.
Qed.

Lemma sweepCallback_stages txn upperBound key (l l' : Z * ChangeBuffer) w w' :
  sweepCallback txn upperBound key l w = (Normal l', w') ->
  l' = l \/
  (l'.2 = removeEntry key l.2 /\
   (MemoryLruDelegate.isPinned txn key upperBound w).1 = Normal false).
Proof.
  unfold bind.
  destruct (MemoryLruDelegate.isPinned txn key upperBound w) as [[[]|e] w1];
    cbn; intros [= <- _]; auto.
Qed.

(** Whatever the outcome of the sweep, a document whose orphan sequence
    number is greater than the upper bound stays as it is. *)
Lemma sweep_retains txn upperBound key w :
  orphanedAfter upperBound key (referenceDelegate (store w)) = true ->
  docs (remoteDocumentCache
          (store (MemoryLruDelegate.removeOrphanedDocuments txn upperBound w).2))
    !! path key
  = docs (remoteDocumentCache (store w)) !! path key.
Proof.
  intros Hd. unfold MemoryLruDelegate.removeOrphanedDocuments.
  destruct (forEachDocumentKey txn (sweepCallback txn upperBound)
              (0, newChangeBuffer) w) as [[l|e] w1] eqn:E.
  - assert (Hs : store w1 = store w).
    { pose proof (forEach_store (sweepCallback txn upperBound)
        (sweepCallback_store txn upperBound)
        (documentKeys (remoteDocumentCache (store w)))
        (0, newChangeBuffer) w) as Hs.
      unfold forEachDocumentKey in E. by rewrite E in Hs. }
    assert (Hl : path key ∉ path <$> l.2).
    { unfold forEachDocumentKey in E.
      refine (forEach_invariant (sweepCallback txn upperBound)
        (fun p => p = store w) (fun l => path key ∉ path <$> l.2) _
        (sweepCallback_store txn upperBound) _ _ _ _ _ eq_refl _ E).
      - intros x l0 w0 l' w' _ Hw0 Hl0 Hx.
        apply sweepCallback_stages in Hx as [-> | [-> Hfalse]]; [done|].
        unfold removeEntry. rewrite fmap_app, elem_of_app.
        intros [?|Hin]; [done|].
        cbn in Hin. apply list_elem_of_singleton in Hin.
        apply (isPinned_not_false txn x upperBound w0); [|done].
        rewrite Hw0. unfold orphanedAfter in *. by rewrite <- Hin.
      - cbn. apply not_elem_of_nil. }
    rewrite (bind_normal _ _ _ _ _ E). cbn. rewrite Hs.
    rewrite deleteAll_lookup. by rewrite decide_False.
  - rewrite (bind_abrupt _ _ _ _ _ E). cbn [snd].
    pose proof (forEach_store (sweepCallback txn upperBound)
      (sweepCallback_store txn upperBound)
      (documentKeys (remoteDocumentCache (store w)))
      (0, newChangeBuffer) w) as Hs.
    unfold forEachDocumentKey in E. rewrite E in Hs. cbn in Hs.
    by rewrite Hs.
Qed.
End LruRetention.

(** C5. Under the LRU delegate, let a reference event for [key] run in a
    transaction with sequence number [S1] and a later one (any of
    [addReference], [removeReference], [removeMutationReference],
    [updateLimboDocument]) in a transaction with sequence number
    [S2 > S1].  Both resolve; the first sets the orphan sequence number of
    the key to [S1], the second overwrites it with [S2]; and for every
    upper bound [S1 <= U < S2] the key is pinned (once a pin set is
    installed [isPinned] resolves to true) and a sweep
    [removeOrphanedDocuments] with upper bound [U] leaves the document
    of the key in the document cache as it was. *)
Theorem lru_monotonic_retention (w : World MemoryLruDelegate.t)
    (first second : ReferenceEvent) (txn1 txn2 txn : MemoryTransaction)
    (key : DocumentKey) (U : ListenSequenceNumber) :
  let S1 := currentSequenceNumber txn1 in
  let S2 := currentSequenceNumber txn2 in
  S1 < S2 -> S1 <= U < S2 ->
  exists w1 w2,
    fire first txn1 key w = (Normal tt, w1)
    /\ MemoryLruDelegate.orphanedSequenceNumbers (referenceDelegate (store w1))
         !! path key = Some S1
    /\ fire second txn2 key w1 = (Normal tt, w2)
    /\ MemoryLruDelegate.orphanedSequenceNumbers (referenceDelegate (store w2))
         !! path key = Some S2
    /\ (forall pins,
          MemoryLruDelegate.inMemoryPins (referenceDelegate (store w2))
            = Some pins ->
          (MemoryLruDelegate.isPinned txn key U w2).1 = Normal true)
    /\ docs (remoteDocumentCache
               (store (MemoryLruDelegate.removeOrphanedDocuments txn U w2).2))
         !! path key
       = docs (remoteDocumentCache (store w)) !! path key.
Proof.
  intros S1 S2 Hlt HU.
  assert (Hfire : forall e t w0,
    fire e t key w0 =
    (Normal tt,
     snd (MemoryLruDelegate.orphanedSequenceNumbers_set key
            (currentSequenceNumber t) w0))).
  { intros [] t w0; reflexivity. }
  eexists _, _. split; [apply Hfire|]. split.
  { cbn. apply lookup_insert_eq. }
  split; [apply Hfire|].
  set (w2 := snd (MemoryLruDelegate.orphanedSequenceNumbers_set key
                    (currentSequenceNumber txn2) _)).
  assert (Hentry :
    MemoryLruDelegate.orphanedSequenceNumbers (referenceDelegate (store w2))
      !! path key = Some S2).
  { cbn. apply lookup_insert_eq. }
  assert (Hd : orphanedAfter U key (referenceDelegate (store w2)) = true).
  { unfold orphanedAfter. rewrite Hentry. apply bool_decide_eq_true. lia. }
  split; [exact Hentry|]. split.
  - intros pins Hpins.
    destruct (isPinned_pinnedBy txn key U w2 pins Hpins) as [cs ->].
    cbn [fst]. unfold pinnedBy. rewrite Hd. by rewrite !orb_true_r.
  - rewrite (sweep_retains txn U key w2 Hd). reflexivity.
Qed.

Lemma lru_monotonic_retention_witness :
  exists w1 w2,
    fire RemoveReference {| currentSequenceNumber := 5 |} Sample.roomA
      Sample.lru = (Normal tt, w1)
    /\ fire AddReference {| currentSequenceNumber := 7 |} Sample.roomA w1
       = (Normal tt, w2)
    /\ docs (remoteDocumentCache
               (store (MemoryLruDelegate.removeOrphanedDocuments
                         Sample.txn11 6 w2).2))
         !! ["rooms"; "a"] = Some 1%nat.
Proof.
  pose proof (lru_monotonic_retention Sample.lru RemoveReference AddReference
                {| currentSequenceNumber := 5 |}
                {| currentSequenceNumber := 7 |} Sample.txn11 Sample.roomA 6)
    as H.
  cbv zeta in H.
  destruct H as (w1 & w2 & E1 & _ & E2 & _ & _ & Hkeep); [cbn; lia..|].
  exists w1, w2. split; [exact E1|]. split; [exact E2|]. exact Hkeep.
Defined.


(** ** The commit of the eager delegate *)
Section EagerCommit.
Implicit Types (w : World MemoryEagerDelegate.t) (txn : MemoryTransaction)
  (key : DocumentKey) (pins : ReferenceSet.t).

Local Abbreviation commitCallback txn :=
  (fun key (changeBuffer : ChangeBuffer) =>
     let! isReferenced := MemoryEagerDelegate.isReferenced txn key in
     if negb isReferenced
     then ret (removeEntry key changeBuffer)
     else ret changeBuffer).

Lemma isReferenced_referencedBy txn key w pins :
  MemoryEagerDelegate.inMemoryPins (referenceDelegate (store w)) = Some pins ->
  exists cs,
    MemoryEagerDelegate.isReferenced txn key w =
    (Normal (referencedBy pins (store w) key), logged cs w).
Proof.
  intros Hpins. pose proof (isReferenced_eval txn key w) as E.
  cbv zeta in E. rewrite Hpins in E. unfold referencedBy.
  destruct (ReferenceSet.containsKey key (references _)); [eauto|].
  destruct (queuesContainKey key _); eauto.
Qed.

Lemma isReferenced_store txn key w :
  store (MemoryEagerDelegate.isReferenced txn key w).2 = store w.
Proof.
  pose proof (isReferenced_eval txn key w) as E. cbv zeta in E.
  destruct (ReferenceSet.containsKey key (references _)); [by rewrite E|].
  destruct (queuesContainKey key _); [by rewrite E|].
  destruct (MemoryEagerDelegate.inMemoryPins _); by rewrite E.
Qed.

Lemma referencedBy_path pins (p : MemoryPersistence MemoryEagerDelegate.t)
    key key' :
  path key = path key' -> referencedBy pins p key = referencedBy pins p key'.
Proof.
  intros E. unfold referencedBy, queuesContainKey, ReferenceSet.containsKey.
  by rewrite E.
Qed.

Lemma commit_fold (referenced : DocumentKey -> bool)
    (orphans : list DocumentKey) :
  forall buf : ChangeBuffer,
    fold_left
      (fun (buf : ChangeBuffer) key =>
         if negb (referenced key) then removeEntry key buf else buf)
      orphans buf =
    (buf ++ filter (fun k => referenced k = false) orphans)%list.
Proof.
  induction orphans as [|k orphans IH]; intros buf; cbn [fold_left].
  - by rewrite app_nil_r.
  - rewrite filter_cons. destruct (referenced k) eqn:E; cbn [negb].
    + rewrite decide_False by done. apply IH.
    + rewrite decide_True by done. rewrite IH. unfold removeEntry.
      by rewrite <- app_assoc.
Qed.

(** The commit hook inside a transaction, with a pin set installed: the
    orphan candidates that are not referenced are staged for removal, the
    scratch set is discarded and the buffer is applied. *)
Lemma onTransactionCommitted_eval txn w pins orphans :
  MemoryEagerDelegate.inMemoryPins (referenceDelegate (store w)) = Some pins ->
  MemoryEagerDelegate._orphanedDocuments (referenceDelegate (store w))
    = Some orphans ->
  let staged :=
    filter (fun k => referencedBy pins (store w) k = false) orphans in
  exists cs,
    MemoryEagerDelegate.onTransactionCommitted txn w =
    (Normal tt,
     {| store :=
          set_remoteDocumentCache
            (applyChanges staged (remoteDocumentCache (store w)))
            (set_referenceDelegate
               {| MemoryEagerDelegate.inMemoryPins := Some pins;
                  MemoryEagerDelegate._orphanedDocuments := None |}
               (store w));
        calls := (calls w ++ cs)%list |}).
Proof.
  intros Hpins Horph staged.
  destruct (forEach_resolved
    (fun p => MemoryEagerDelegate.inMemoryPins (referenceDelegate p) = Some pins)
    (commitCallback txn)
    (fun p key (buf : ChangeBuffer) =>
       if negb (referencedBy pins p key) then removeEntry key buf else buf))
    with (xs := orphans) (l := newChangeBuffer) (w := w) as [cs E]; [|done|].
  - intros x l w0 Hw0.
    destruct (isReferenced_referencedBy txn x w0 pins Hw0) as [cs E].
    exists cs. rewrite (bind_normal _ _ _ _ _ E).
    by destruct (referencedBy pins (store w0) x).
  - exists cs. unfold MemoryEagerDelegate.onTransactionCommitted.
    erewrite bind_normal;
      [|unfold MemoryEagerDelegate.orphanedDocuments; rewrite Horph;
        reflexivity].
    erewrite bind_normal; [|exact E].
    rewrite (commit_fold (referencedBy pins (store w))).
    cbn. rewrite Hpins. reflexivity.
Qed.

Lemma commitCallback_store txn key (buf : ChangeBuffer) w :
  store (commitCallback txn key buf w).2 = store w.
Proof.
  pose proof (isReferenced_store txn key w) as Hs. unfold bind.
  destruct (MemoryEagerDelegate.isReferenced txn key w) as [[[]|e] w'];
    exact Hs.
Qed.

Lemma commitCallback_stages txn key (buf buf' : ChangeBuffer) w w' :
  commitCallback txn key buf w = (Normal buf', w') ->
  buf' = buf \/ buf' = removeEntry key buf.
Proof.
  unfold bind.
  destruct (MemoryEagerDelegate.isReferenced txn key w) as [[[]|e] w1];
    cbn; intros [= <- _]; auto.
Qed.

(** Whatever the outcome of the commit hook, a document that no orphan
    candidate names stays in the document cache as it is. *)
Lemma commit_retains txn key w orphans :
  MemoryEagerDelegate._orphanedDocuments (referenceDelegate (store w))
    = Some orphans ->
  (forall k, k ∈ orphans -> path k <> path key) ->
  docs (remoteDocumentCache
          (store (MemoryEagerDelegate.onTransactionCommitted txn w).2))
    !! path key
  = docs (remoteDocumentCache (store w)) !! path key.
Proof.
  intros Horph Hfree. unfold MemoryEagerDelegate.onTransactionCommitted.
  erewrite bind_normal;
    [|unfold MemoryEagerDelegate.orphanedDocuments; rewrite Horph;
      reflexivity].
  pose proof (forEach_store (commitCallback txn) (commitCallback_store txn)
                orphans newChangeBuffer w) as Hs.
  destruct (PersistencePromise.forEach orphans (commitCallback txn)
              newChangeBuffer w) as [[buf|e] w1] eqn:E;
    rewrite ?E in Hs; cbn [snd] in Hs.
  - assert (Hbuf : path key ∉ path <$> buf).
    { refine (forEach_invariant (commitCallback txn)
        (fun _ => True) (fun buf => path key ∉ path <$> buf) orphans
        (commitCallback_store txn) _ _ _ _ _ I _ E).
      - intros x b0 w0 b' w' Hx _ Hb0 Hstep.
        apply commitCallback_stages in Hstep as [-> | ->]; [done|].
        unfold removeEntry. rewrite fmap_app, elem_of_app.
        intros [?|Hin]; [done|].
        cbn in Hin. apply list_elem_of_singleton in Hin.
        by apply (Hfree x Hx).
      - cbn. apply not_elem_of_nil. }
    rewrite (bind_normal _ _ _ _ _ E). cbn. rewrite Hs.
    rewrite deleteAll_lookup. by rewrite decide_False.
  - rewrite (bind_abrupt _ _ _ _ _ E). cbn [snd]. by rewrite Hs.
Qed.
End EagerCommit.

(** C1. Eager exhaustiveness.  Let a transaction run under the eager
    delegate: [runTransaction] takes the next sequence number, opens the
    scratch set and runs the operation.  If the operation resolves in a
    world where [key] is in the orphan-candidate set and is contained in
    no target, in no mutation queue and not in the pin set, then the
    commit hook resolves, having staged the removal of [key] in the change
    buffer that it applies to the document cache; the scratch set is
    discarded; the transaction resolves with the result of the operation
    on the store the commit left, in which the document of [key] is
    absent. *)
Theorem eager_exhaustiveness {T : Type} (w w1 : World MemoryEagerDelegate.t)
    (action : string) (mode : PersistenceTransactionMode)
    (transactionOperation :
       MemoryTransaction -> Eff (World MemoryEagerDelegate.t) T)
    (result : T) (orphans : JsSet.t) (pins : ReferenceSet.t)
    (key : DocumentKey) :
  let txn := {| currentSequenceNumber := listenSequence (store w) + 1 |} in
  let w0 :=
    (bind ListenSequence_next (fun _ => onTransactionStarted) w).2 in
  transactionOperation txn w0 = (Normal result, w1) ->
  MemoryEagerDelegate._orphanedDocuments (referenceDelegate (store w1))
    = Some orphans ->
  key ∈ orphans ->
  MemoryEagerDelegate.inMemoryPins (referenceDelegate (store w1))
    = Some pins ->
  ReferenceSet.containsKey key (references (targetCache (store w1))) = false ->
  queuesContainKey key (mutationQueues (store w1)) = false ->
  ReferenceSet.containsKey key pins = false ->
  exists (changeBuffer : ChangeBuffer) w2 w3,
    MemoryEagerDelegate.onTransactionCommitted txn w1 = (Normal tt, w2)
    /\ key ∈ changeBuffer
    /\ remoteDocumentCache (store w2)
       = applyChanges changeBuffer (remoteDocumentCache (store w1))
    /\ docs (remoteDocumentCache (store w2)) !! path key = None
    /\ MemoryEagerDelegate._orphanedDocuments (referenceDelegate (store w2))
       = None
    /\ runTransaction action mode transactionOperation w = (Normal result, w3)
    /\ store w3 = store w2.
Proof.
  intros txn w0 Hop Horph Hin Hpins Htarget Hqueues Hpin.
  destruct (onTransactionCommitted_eval txn w1 pins orphans Hpins Horph)
    as [cs E].
  cbv zeta in E.
  set (staged :=
         filter (fun k => referencedBy pins (store w1) k = false) orphans)
    in *.
  assert (Hstaged : key ∈ staged).
  { apply list_elem_of_filter. split; [|done].
    unfold referencedBy. by rewrite Htarget, Hqueues, Hpin. }
  eexists staged, _, _. split; [exact E|].
  split; [exact Hstaged|]. split; [reflexivity|]. split.
  { cbn. rewrite deleteAll_lookup. rewrite decide_True; [done|].
    apply list_elem_of_fmap. eauto. }
  split; [reflexivity|]. split.
  - unfold runTransaction.
    erewrite bind_normal; [|reflexivity].
    erewrite bind_normal; [|reflexivity].
    erewrite bind_normal; [|exact Hop].
    erewrite bind_normal; [|exact E].
    reflexivity.
  - reflexivity.
Qed.

Lemma eager_exhaustiveness_witness :
  exists w3,
    runTransaction "Acknowledge batch" readwrite
      (fun txn => MemoryEagerDelegate.removeMutationReference txn Sample.roomA)
      (Sample.eager None) = (Normal tt, w3)
    /\ docs (remoteDocumentCache (store w3)) !! ["rooms"; "a"] = None.
Proof.
  pose (op := fun txn =>
    MemoryEagerDelegate.removeMutationReference txn Sample.roomA).
  pose (w0 := (bind ListenSequence_next (fun _ => onTransactionStarted)
                 (Sample.eager None)).2).
  pose proof (eager_exhaustiveness (Sample.eager None)
    (op {| currentSequenceNumber := 11 |} w0).2
    "Acknowledge batch" readwrite op tt [Sample.roomA] [] Sample.roomA) as H.
  cbv zeta in H.
  destruct H as (cb & w2 & w3 & _ & _ & _ & Hgone & _ & Hrun & Hstore).
  - reflexivity.
  - reflexivity.
  - apply list_elem_of_here.
  - reflexivity.
  - reflexivity.
  - reflexivity.
  - reflexivity.
  - exists w3. split; [exact Hrun|]. rewrite Hstore. exact Hgone.
Defined.

(** ** The scratch set of the eager delegate *)
Section ScratchSet.
Implicit Types (w : World MemoryEagerDelegate.t) (txn : MemoryTransaction)
  (key : DocumentKey) (orphans : JsSet.t).

Local Abbreviation scratch w :=
  (MemoryEagerDelegate._orphanedDocuments (referenceDelegate (store w))).

Local Abbreviation withScratch o w :=
  ((MemoryEagerDelegate.set_orphanedDocuments o w).2).

Lemma orphanedDocuments_in_window w orphans :
  scratch w = Some orphans ->
  MemoryEagerDelegate.orphanedDocuments w = (Normal orphans, w).
Proof.
  intros H. unfold MemoryEagerDelegate.orphanedDocuments. by rewrite H.
Qed.

Lemma orphanedDocuments_outside_window w :
  scratch w = None ->
  MemoryEagerDelegate.orphanedDocuments w =
  (Abrupt scratchSetFailure, w).
Proof.
  intros H. unfold MemoryEagerDelegate.orphanedDocuments. by rewrite H.
Qed.

Lemma orphanedDocuments_add_eval key w orphans :
  scratch w = Some orphans ->
  MemoryEagerDelegate.orphanedDocuments_add key w =
  (Normal tt, withScratch (Some (JsSet.add key orphans)) w).
Proof.
  intros H. unfold MemoryEagerDelegate.orphanedDocuments_add.
  by rewrite (bind_normal _ _ _ _ _ (orphanedDocuments_in_window w _ H)).
Qed.

Lemma orphanedDocuments_delete_eval key w orphans :
  scratch w = Some orphans ->
  MemoryEagerDelegate.orphanedDocuments_delete key w =
  (Normal tt, withScratch (Some (JsSet.delete key orphans)) w).
Proof.
  intros H. unfold MemoryEagerDelegate.orphanedDocuments_delete.
  by rewrite (bind_normal _ _ _ _ _ (orphanedDocuments_in_window w _ H)).
Qed.

Lemma JsSet_elem_of_add key k orphans :
  k ∈ JsSet.add key orphans <-> k = key \/ k ∈ orphans.
Proof.
  unfold JsSet.add, JsSet.has. case_bool_decide as Hin.
  - split; [auto|]. by intros [->|].
  - rewrite elem_of_app, list_elem_of_singleton. tauto.
Qed.

Lemma JsSet_elem_of_delete key k orphans :
  k ∈ JsSet.delete key orphans <-> k <> key /\ k ∈ orphans.
Proof. unfold JsSet.delete. by rewrite list_elem_of_filter. Qed.

(** [removeReference] or [removeMutationReference] for one key object and
    then [addReference] for another, inside a transaction. *)
Lemma remove_then_add_eval (remove : ReferenceEvent) txn key key' w orphans :
  remove = RemoveReference \/ remove = RemoveMutationReference ->
  scratch w = Some orphans ->
  bind (fire remove txn key) (fun _ => fire AddReference txn key') w =
  (Normal tt,
   withScratch (Some (JsSet.delete key' (JsSet.add key orphans))) w).
Proof.
  intros Hremove H.
  assert (E : fire remove txn key w =
              (Normal tt, withScratch (Some (JsSet.add key orphans)) w)).
  { destruct Hremove as [-> | ->]; cbn [fire addReference removeReference
      removeMutationReference eager_delegate];
      unfold MemoryEagerDelegate.removeReference,
        MemoryEagerDelegate.removeMutationReference;
      by rewrite (bind_normal _ _ _ _ _ (orphanedDocuments_add_eval key w _ H)). }
  rewrite (bind_normal _ _ _ _ _ E).
  cbn [fire addReference eager_delegate].
  unfold MemoryEagerDelegate.addReference.
  erewrite bind_normal;
    [|apply orphanedDocuments_delete_eval; reflexivity].
  reflexivity.
Qed.

(** With one and the same key object the add cancels the remove: the
    object is not in the scratch set afterwards. *)
Lemma remove_then_add_same_object (remove : ReferenceEvent) txn key w orphans :
  remove = RemoveReference \/ remove = RemoveMutationReference ->
  scratch w = Some orphans ->
  exists w1 orphans1,
    bind (fire remove txn key) (fun _ => fire AddReference txn key) w
      = (Normal tt, w1)
    /\ scratch w1 = Some orphans1
    /\ key ∉ orphans1.
Proof.
  intros Hremove H. eexists _, _. split; [by apply remove_then_add_eval|].
  split; [reflexivity|].
  rewrite JsSet_elem_of_delete. tauto.
Qed.

(** With two key objects for the same document the add cancels nothing:
    the removed object is still in the scratch set. *)
Lemma remove_then_add_other_object (remove : ReferenceEvent) txn key key' w
    orphans :
  remove = RemoveReference \/ remove = RemoveMutationReference ->
  scratch w = Some orphans ->
  key <> key' ->
  exists w1 orphans1,
    bind (fire remove txn key) (fun _ => fire AddReference txn key') w
      = (Normal tt, w1)
    /\ scratch w1 = Some orphans1
    /\ key ∈ orphans1.
Proof.
  intros Hremove H Hne. eexists _, _.
  split; [by apply remove_then_add_eval|].
  split; [reflexivity|].
  rewrite JsSet_elem_of_delete, JsSet_elem_of_add. auto.
Qed.

(** With one key object per document the add cancels the remove for the
    document as well: after a remove and an add of the same object, no
    candidate names the document and the commit leaves it in the document
    cache. *)
Lemma remove_then_add_then_commit (remove : ReferenceEvent) txn key w orphans :
  remove = RemoveReference \/ remove = RemoveMutationReference ->
  scratch w = Some orphans ->
  (forall k, k ∈ orphans -> path k = path key -> k = key) ->
  docs (remoteDocumentCache
          (store
             (bind (fire remove txn key)
                (fun _ => bind (fire AddReference txn key)
                   (fun _ => MemoryEagerDelegate.onTransactionCommitted txn))
                w).2))
    !! path key
  = docs (remoteDocumentCache (store w)) !! path key.
Proof.
  intros Hremove H Hsingle.
  pose proof (remove_then_add_eval remove txn key key w orphans Hremove H)
    as E.
  unfold bind in E |- *.
  destruct (fire remove txn key w) as [[[]|e] w1]; [|discriminate].
  destruct (fire AddReference txn key w1) as [[[]|e] w2]; [|discriminate].
  injection E as ->.
  erewrite commit_retains; [reflexivity|reflexivity|].
  intros k [Hne Hin]%JsSet_elem_of_delete Hpath.
  apply JsSet_elem_of_add in Hin as [->|Hin]; [done|].
  apply Hne. by apply Hsingle.
Qed.
End ScratchSet.

(** The LRU delegate, for comparison, finds a key by its path: any key
    object of a document does. *)
Lemma lru_fire_by_path (e : ReferenceEvent) (txn : MemoryTransaction)
    (key key' : DocumentKey) (w : World MemoryLruDelegate.t) :
  path key = path key' -> fire e txn key w = fire e txn key' w.
Proof.
  intros E.
  destruct e; cbn [fire addReference removeReference removeMutationReference
    updateLimboDocument lru_delegate];
    unfold MemoryLruDelegate.addReference, MemoryLruDelegate.removeReference,
      MemoryLruDelegate.removeMutationReference,
      MemoryLruDelegate.updateLimboDocument,
      MemoryLruDelegate.orphanedSequenceNumbers_set;
    by rewrite E.
Qed.

(** C6, the code at the failing input.  The document [rooms/a] is resident
    and referenced by nothing; [roomA] and [roomA'] are two key objects
    for it.  The [Set] compares objects, so an [addReference] removes from
    the scratch set only the very object it is given.  (1) After
    [removeReference roomA'], [removeReference roomA] and
    [addReference roomA] the candidate [roomA'] is still in the set at
    commit, and [rooms/a] is gone from the document cache although a
    remove of [roomA] was followed by an add of [roomA].  (2) The same
    happens after [removeReference roomA] and [addReference roomA'].
    (3) When no other key object of the document is involved, the add
    cancels the remove and the document stays. *)
Theorem eager_cancel_on_add_by_object_identity :
  let run := fun operation =>
    runTransaction (D:=MemoryEagerDelegate.t) "Release target" readwrite
      operation (Sample.eager None) in
  let rooms_a := fun (r : Completion unit * World MemoryEagerDelegate.t) =>
    docs (remoteDocumentCache (store r.2)) !! ["rooms"; "a"] in
  path Sample.roomA = path Sample.roomA'
  /\ (let r := run (fun txn =>
                  MemoryEagerDelegate.removeReference txn Sample.roomA' >>
                  MemoryEagerDelegate.removeReference txn Sample.roomA >>
                  MemoryEagerDelegate.addReference txn Sample.roomA) in
      r.1 = Normal tt /\ rooms_a r = None)
  /\ (let r := run (fun txn =>
                  MemoryEagerDelegate.removeReference txn Sample.roomA >>
                  MemoryEagerDelegate.addReference txn Sample.roomA') in
      r.1 = Normal tt /\ rooms_a r = None)
  /\ (let r := run (fun txn =>
                  MemoryEagerDelegate.removeReference txn Sample.roomA >>
                  MemoryEagerDelegate.addReference txn Sample.roomA) in
      r.1 = Normal tt /\ rooms_a r = Some 1%nat).
Proof. vm_compute. repeat split. Qed.


(** ** The window of the scratch set *)
Section Window.
Implicit Types (w : World MemoryEagerDelegate.t) (txn : MemoryTransaction)
  (key : DocumentKey) (orphans : JsSet.t).

Local Abbreviation scratch w :=
  (MemoryEagerDelegate._orphanedDocuments (referenceDelegate (store w))).

Local Abbreviation withScratch o w :=
  ((MemoryEagerDelegate.set_orphanedDocuments o w).2).

Lemma iter_add_eval (keys : list DocumentKey) : forall w orphans,
  scratch w = Some orphans ->
  iter MemoryEagerDelegate.orphanedDocuments_add keys w =
  (Normal tt,
   withScratch (Some (fold_left (fun s k => JsSet.add k s) keys orphans)) w).
Proof.
  induction keys as [|k keys IH]; intros w orphans H; cbn [iter fold_left].
  - unfold ret. f_equal. destruct w as [[? ? ? ? ? [? ?]] ?].
    cbn in *. by subst.
  - rewrite (bind_normal _ _ _ _ _ (orphanedDocuments_add_eval k w _ H)).
    by rewrite (IH _ (JsSet.add k orphans)).
Qed.

Lemma elem_of_fold_add (keys : list DocumentKey) : forall orphans k,
  k ∈ fold_left (fun s k => JsSet.add k s) keys orphans <->
  k ∈ keys \/ k ∈ orphans.
Proof.
  induction keys as [|k0 keys IH]; intros orphans k; cbn [fold_left].
  - rewrite elem_of_nil. tauto.
  - rewrite IH, JsSet_elem_of_add, elem_of_cons. tauto.
Qed.

Lemma fire_keeps_window (e : ReferenceEvent) txn key w :
  is_Some (scratch w) -> is_Some (scratch (fire e txn key w).2).
Proof.
  intros [orphans H].
  assert (Hadd : is_Some
    (scratch (MemoryEagerDelegate.orphanedDocuments_add key w).2))
    by (by rewrite (orphanedDocuments_add_eval key w _ H)).
  assert (Hdel : is_Some
    (scratch (MemoryEagerDelegate.orphanedDocuments_delete key w).2))
    by (by rewrite (orphanedDocuments_delete_eval key w _ H)).
  destruct e; cbn [fire addReference removeReference removeMutationReference
    updateLimboDocument eager_delegate].
  - unfold MemoryEagerDelegate.addReference.
    by rewrite (bind_normal _ _ _ _ _ (orphanedDocuments_delete_eval key w _ H)).
  - unfold MemoryEagerDelegate.removeReference.
    by rewrite (bind_normal _ _ _ _ _ (orphanedDocuments_add_eval key w _ H)).
  - unfold MemoryEagerDelegate.removeMutationReference.
    by rewrite (bind_normal _ _ _ _ _ (orphanedDocuments_add_eval key w _ H)).
  - unfold MemoryEagerDelegate.updateLimboDocument, bind.
    pose proof (isReferenced_store txn key w) as Hs.
    destruct (MemoryEagerDelegate.isReferenced txn key w) as [[[]|err] w'];
      cbn [snd] in *.
    + assert (H' : scratch w' = Some orphans) by (by rewrite Hs).
      by rewrite (orphanedDocuments_delete_eval key w' _ H').
    + assert (H' : scratch w' = Some orphans) by (by rewrite Hs).
      by rewrite (orphanedDocuments_add_eval key w' _ H').
    + rewrite Hs. eauto.
Qed.

Lemma call_keeps_window txn (c : DelegateCall) w :
  is_Some (scratch w) -> is_Some (scratch (call txn c w).2).
Proof.
  destruct c as [e key|targetData]; cbn [call].
  - apply fire_keeps_window.
  - intros [orphans H]. cbn [removeTarget eager_delegate].
    unfold MemoryEagerDelegate.removeTarget.
    erewrite bind_normal; [|reflexivity].
    rewrite (bind_normal _ _ _ _ _ (iter_add_eval _ w _ H)). cbn. eauto.
Qed.

Lemma afterCalls_keeps_window txn (cs : list DelegateCall) : forall w,
  is_Some (scratch w) -> is_Some (scratch (afterCalls txn cs w)).
Proof.
  induction cs as [|c cs IH]; intros w H; [exact H|].
  cbn [afterCalls fold_left]. apply IH. by apply call_keeps_window.
Qed.
End Window.

(** C7. The orphan-candidate set of the eager delegate exists only between
    [onTransactionStarted] and the completion of [onTransactionCommitted].
    On a delegate that was just constructed the getter fails with the
    internal assertion failure of [fail] (not a [FirestoreError]), and so
    do [addReference], [removeReference] and [removeMutationReference].
    After [onTransactionStarted], and after any sequence of delegate
    calls made in the transaction, the getter returns the set.  With a
    pin set installed [onTransactionCommitted] completes, and once it has
    completed the set is null again and the getter and the three methods
    fail with the same assertion failure. *)
Theorem scratch_set_window (w : World MemoryEagerDelegate.t)
    (txn : MemoryTransaction) (cs : list DelegateCall)
    (e : ReferenceEvent) (key : DocumentKey) :
  let accessors := [AddReference; RemoveReference; RemoveMutationReference] in
  let created := withNewDelegate MemoryEagerDelegate.new w in
  let opened := afterCalls txn cs (onTransactionStarted w).2 in
  (MemoryEagerDelegate.orphanedDocuments created
     = (Abrupt scratchSetFailure, created)
   /\ (e ∈ accessors ->
       fire e txn key created = (Abrupt scratchSetFailure, created)))
  /\ (exists orphans,
        MemoryEagerDelegate.orphanedDocuments opened = (Normal orphans, opened))
  /\ (forall pins,
        MemoryEagerDelegate.inMemoryPins (referenceDelegate (store opened))
          = Some pins ->
        exists closed, onTransactionCommitted txn opened = (Normal tt, closed))
  /\ (forall closed,
        onTransactionCommitted txn opened = (Normal tt, closed) ->
        MemoryEagerDelegate.orphanedDocuments closed
          = (Abrupt scratchSetFailure, closed)
        /\ (e ∈ accessors ->
            fire e txn key closed = (Abrupt scratchSetFailure, closed))).
Proof.
  intros accessors created opened.
  assert (Hfatal : forall w0,
    MemoryEagerDelegate._orphanedDocuments (referenceDelegate (store w0))
      = None ->
    MemoryEagerDelegate.orphanedDocuments w0 = (Abrupt scratchSetFailure, w0)
    /\ (e ∈ accessors ->
        fire e txn key w0 = (Abrupt scratchSetFailure, w0))).
  { intros w0 H0.
    pose proof (orphanedDocuments_outside_window w0 H0) as Hget.
    split; [exact Hget|].
    intros He. unfold accessors in He.
    rewrite !elem_of_cons, elem_of_nil in He.
    destruct He as [-> | [-> | [-> | []]]];
      cbn [fire addReference removeReference removeMutationReference
           eager_delegate];
      unfold MemoryEagerDelegate.addReference,
        MemoryEagerDelegate.removeReference,
        MemoryEagerDelegate.removeMutationReference,
        MemoryEagerDelegate.orphanedDocuments_delete,
        MemoryEagerDelegate.orphanedDocuments_add;
      by rewrite (bind_abrupt _ _ _ _ _
                    (bind_abrupt _ _ _ _ _ Hget)). }
  split; [apply Hfatal; reflexivity|]. split; [|split].
  - destruct (afterCalls_keeps_window txn cs (onTransactionStarted w).2)
      as [orphans H]; [by eexists|].
    exists orphans. by apply orphanedDocuments_in_window.
  - intros pins Hpins.
    destruct (afterCalls_keeps_window txn cs (onTransactionStarted w).2)
      as [orphans H]; [by eexists|].
    destruct (onTransactionCommitted_eval txn opened pins orphans Hpins H)
      as [cs' E].
    eexists. exact E.
  - intros closed Hcommit. apply Hfatal.
    destruct (afterCalls_keeps_window txn cs (onTransactionStarted w).2)
      as [orphans H]; [by eexists|].
    fold opened in H.
    cbn [onTransactionCommitted eager_delegate] in Hcommit.
    unfold MemoryEagerDelegate.onTransactionCommitted in Hcommit.
    rewrite (bind_normal _ _ _ _ _ (orphanedDocuments_in_window _ _ H))
      in Hcommit.
    unfold bind at 1 in Hcommit.
    destruct (PersistencePromise.forEach _ _ _ _) as [[buf|err] w1];
      [|discriminate].
    cbn in Hcommit. injection Hcommit as <-. reflexivity.
Qed.

Lemma scratch_set_window_witness :
  (exists orphans,
     MemoryEagerDelegate.orphanedDocuments
       (afterCalls Sample.txn11 [OnKey RemoveReference Sample.roomA]
          (onTransactionStarted (Sample.eager None)).2)
     = (Normal orphans,
        afterCalls Sample.txn11 [OnKey RemoveReference Sample.roomA]
          (onTransactionStarted (Sample.eager None)).2))
  /\ (exists closed,
        onTransactionCommitted Sample.txn11
          (afterCalls Sample.txn11 [OnKey RemoveReference Sample.roomA]
             (onTransactionStarted (Sample.eager None)).2)
        = (Normal tt, closed)
        /\ fire AddReference Sample.txn11 Sample.roomA closed
           = (Abrupt scratchSetFailure, closed)).
Proof.
  pose proof (scratch_set_window (Sample.eager None) Sample.txn11
                [OnKey RemoveReference Sample.roomA] AddReference
                Sample.roomA) as H.
  cbv zeta in H. destruct H as (_ & Hopen & _ & Hclosed).
  split; [exact Hopen|].
  eexists. split; [vm_compute; reflexivity|].
  refine (proj2 (Hclosed _ _) _).
  - vm_compute. reflexivity.
  - apply list_elem_of_here.
Defined.

(** ** Tearing down a target *)

(** C4, as stated, fails for the LRU delegate.  In the sample world target
    7 matches [rooms/b]; after [removeTarget] of the LRU delegate it is
    not the case that every matching document has an orphan sequence
    number and that the metadata of target 7 is gone from the target
    cache. *)
Lemma removeTarget_lru_counterexample :
  let w' :=
    (MemoryLruDelegate.removeTarget Sample.txn11 Sample.target7 Sample.lru).2 in
  ~ ((forall key,
        key ∈ ReferenceSet.referencesForId 7
                (references (targetCache (store Sample.lru))) ->
        is_Some
          (MemoryLruDelegate.orphanedSequenceNumbers
             (referenceDelegate (store w')) !! path key))
     /\ targets (targetCache (store w')) !! 7 = None).
Proof.
  cbv zeta. intros [_ Hgone]. vm_compute in Hgone. discriminate.
Qed.

(** C4, amended.  Inside a transaction, [removeTarget] of the eager
    delegate first adds every key the target still matches to the
    orphan-candidate set, the target cache being untouched so far, and
    then removes the metadata of the target from the target cache.
    [removeTarget] of the LRU delegate marks no document and deletes
    nothing: it stores the metadata of the target again, with the
    sequence number of the transaction. *)
Theorem removeTarget_contract (we : World MemoryEagerDelegate.t)
    (wl : World MemoryLruDelegate.t) (txn : MemoryTransaction)
    (targetData : TargetData) (orphans : JsSet.t) :
  MemoryEagerDelegate._orphanedDocuments (referenceDelegate (store we))
    = Some orphans ->
  let keys :=
    ReferenceSet.referencesForId (targetId targetData)
      (references (targetCache (store we))) in
  (exists marked orphans',
     iter MemoryEagerDelegate.orphanedDocuments_add keys we
       = (Normal tt, marked)
     /\ MemoryEagerDelegate._orphanedDocuments (referenceDelegate (store marked))
        = Some orphans'
     /\ (forall key, key ∈ orphans' <-> key ∈ keys \/ key ∈ orphans)
     /\ targetCache (store marked) = targetCache (store we)
     /\ MemoryEagerDelegate.removeTarget txn targetData we
        = removeTargetData txn targetData marked
     /\ exists final,
          MemoryEagerDelegate.removeTarget txn targetData we
            = (Normal tt, final)
          /\ targets (targetCache (store final)) !! targetId targetData = None
          /\ MemoryEagerDelegate._orphanedDocuments
               (referenceDelegate (store final)) = Some orphans')
  /\ (exists final,
        MemoryLruDelegate.removeTarget txn targetData wl = (Normal tt, final)
        /\ store final =
           set_targetCache
             {| targets :=
                  <[targetId targetData :=
                      {| targetId := targetId targetData;
                         sequenceNumber := currentSequenceNumber txn |}]>
                    (targets (targetCache (store wl)));
                references := references (targetCache (store wl)) |}
             (store wl)).
Proof.
  intros Hscratch keys. split.
  - pose proof (iter_add_eval keys we orphans Hscratch) as Hiter.
    eexists _, _. split; [exact Hiter|].
    split; [reflexivity|]. split; [apply elem_of_fold_add|].
    split; [reflexivity|].
    assert (E : MemoryEagerDelegate.removeTarget txn targetData we =
                removeTargetData txn targetData
                  (MemoryEagerDelegate.set_orphanedDocuments
                     (Some (fold_left (fun s k => JsSet.add k s) keys orphans))
                     we).2).
    { unfold MemoryEagerDelegate.removeTarget.
      erewrite bind_normal; [|reflexivity].
      fold keys. by rewrite (bind_normal _ _ _ _ _ Hiter). }
    split; [exact E|].
    eexists. split; [rewrite E; reflexivity|].
    split; [|reflexivity]. cbn. apply lookup_delete_eq.
  - eexists. split; reflexivity.
Qed.

Lemma removeTarget_contract_witness :
  exists final,
    MemoryEagerDelegate.removeTarget Sample.txn11 Sample.target7
      (Sample.eager (Some [])) = (Normal tt, final)
    /\ targets (targetCache (store final)) !! 7 = None
    /\ MemoryEagerDelegate._orphanedDocuments (referenceDelegate (store final))
       = Some [Sample.roomB].
Proof.
  pose proof (removeTarget_contract (Sample.eager (Some [])) Sample.lru
                Sample.txn11 Sample.target7 [] eq_refl) as H.
  cbv zeta in H.
  destruct H as [(marked & orphans' & Hiter & Hscratch & _ & _ & _ & final
                    & E & Hgone & Hfinal) _].
  exists final. split; [exact E|]. split; [exact Hgone|].
  rewrite Hfinal, <- Hscratch.
  assert (C : (iter MemoryEagerDelegate.orphanedDocuments_add
                 (ReferenceSet.referencesForId (targetId Sample.target7)
                    (references (targetCache (store (Sample.eager (Some []))))))
                 (Sample.eager (Some []))).2
              = (MemoryEagerDelegate.set_orphanedDocuments
                   (Some [Sample.roomB]) (Sample.eager (Some []))).2)
    by (vm_compute; reflexivity).
  rewrite Hiter in C. cbn [snd] in C. rewrite C. reflexivity.
Defined.


(** ** The provider *)
Section ProviderProperties.
Context {AsyncQueue RemoteStore DatabaseInfo Platform ClientId User : Type}.
Context {LocalStore SyncEngine MemorySharedClientState
         IndexFreeQueryEngine : Type}.
Context (new_MemorySharedClientState : MemorySharedClientState).
Context (new_IndexFreeQueryEngine : IndexFreeQueryEngine).
Context (new_LocalStore : IndexFreeQueryEngine -> User -> LocalStore).
Context (new_SyncEngine :
  LocalStore -> RemoteStore -> MemorySharedClientState -> User -> Z ->
  SyncEngine).

Local Abbreviation PW :=
  (ProviderWorld ClientId LocalStore SyncEngine MemorySharedClientState).

Local Abbreviation init :=
  (initialize AsyncQueue RemoteStore DatabaseInfo Platform ClientId User
     LocalStore SyncEngine MemorySharedClientState IndexFreeQueryEngine
     new_MemorySharedClientState new_IndexFreeQueryEngine new_LocalStore
     new_SyncEngine).

(** C8. [initialize] called with settings that request durable storage
    throws the [FirestoreError] with code [FAILED_PRECONDITION] and the
    fixed memory-only message, and leaves the world as it found it: no
    field of the provider is assigned and nothing has been constructed.
    [clearPersistence] always throws the same error. *)
Theorem durable_configuration_rejected (w : PW)
    (asyncQueue : AsyncQueue) (remoteStore : RemoteStore)
    (databaseInfo : DatabaseInfo) (platform : Platform)
    (clientId : ClientId) (initialUser : User)
    (maxConcurrentLimboResolutions : Z) (settings : PersistenceSettings) :
  durable settings = true ->
  let rejected :=
    FirestoreError FAILED_PRECONDITION
      "You are using the memory-only build of Firestore. Persistence support is only available via the @firebase/firestore bundle or the firebase-firestore.js build." in
  init asyncQueue remoteStore databaseInfo platform clientId initialUser
    maxConcurrentLimboResolutions settings w = (Abrupt rejected, w)
  /\ constructed
       (init asyncQueue remoteStore databaseInfo platform clientId
          initialUser maxConcurrentLimboResolutions settings w).2
     = constructed w
  /\ clearPersistence w = (Abrupt rejected, w).
Proof.
  intros Hdurable rejected. unfold initialize. rewrite Hdurable.
  repeat split.
Qed.

(** C9. Whatever its arguments, [initialize] either rejects the settings
    and leaves the [persistence] field alone, or resolves having assigned
    it a [MemoryPersistence] whose reference delegate is an instance of
    [MemoryEagerDelegate], which [getPersistence] then returns; the
    objects it constructs are listed, and there is no [MemoryLruDelegate]
    among them. *)
Theorem provider_selects_eager_delegate (w : PW)
    (asyncQueue : AsyncQueue) (remoteStore : RemoteStore)
    (databaseInfo : DatabaseInfo) (platform : Platform)
    (clientId : ClientId) (initialUser : User)
    (maxConcurrentLimboResolutions : Z) (settings : PersistenceSettings) :
  let run :=
    init asyncQueue remoteStore databaseInfo platform clientId initialUser
      maxConcurrentLimboResolutions settings w in
  let news :=
    if durable settings then []
    else [C_MemoryPersistence; C_ListenSequence; C_MemoryEagerDelegate;
          C_MemoryTargetCache; C_MemoryIndexManager;
          C_MemoryRemoteDocumentCache; C_MemorySharedClientState;
          C_IndexFreeQueryEngine; C_LocalStore; C_SyncEngine] in
  (if durable settings
   then persistence (this run.2) = persistence (this w)
   else exists p d,
          run.1 = Normal tt
          /\ persistence (this run.2) = Some p
          /\ referenceDelegate p = EagerDelegate d
          /\ getPersistence run.2 = (Normal p, run.2))
  /\ constructed run.2 = (constructed w ++ news)%list
  /\ (C_MemoryLruDelegate ∉ news).
Proof.
  cbv zeta. unfold initialize. destruct (durable settings).
  - cbn. rewrite app_nil_r. repeat split. apply not_elem_of_nil.
  - cbn. rewrite <- !app_assoc. split; [|split; [reflexivity|]].
    + eexists _, _. repeat split.
    + rewrite !elem_of_cons, elem_of_nil. intros H.
      repeat (destruct H as [H|H]; [discriminate|]). exact H.
Qed.
End ProviderProperties.

Lemma durable_configuration_rejected_witness :
  initialize unit unit unit unit unit unit unit unit unit unit tt tt
    (fun _ _ => tt) (fun _ _ _ _ _ => tt) tt tt tt tt tt tt 1
    {| durable := true |}
    {| this := new_MemoryPersistenceProvider;
       remoteStore_syncEngine := None;
       constructed := [] |}
  = (Abrupt (FirestoreError FAILED_PRECONDITION
               MEMORY_ONLY_PERSISTENCE_ERROR_MESSAGE),
     {| this := new_MemoryPersistenceProvider;
        remoteStore_syncEngine := None;
        constructed := [] |}).
Proof.
  exact (proj1 (durable_configuration_rejected
                  (AsyncQueue:=unit) (RemoteStore:=unit) (DatabaseInfo:=unit)
                  (Platform:=unit) (User:=unit) (IndexFreeQueryEngine:=unit)
                  tt tt (fun _ _ => tt) (fun _ _ _ _ _ => tt)
                  {| this := new_MemoryPersistenceProvider;
                     remoteStore_syncEngine := None;
                     constructed := [] |}
                  tt tt tt tt tt tt 1 {| durable := true |} eq_refl)).
Defined.

(** ** The scheduler *)

(** C10. On the scheduler object returned by
    [getGarbageCollectionScheduler], no sequence of calls of [start] and
    [stop] changes the property [started]: it keeps its initial value
    [false].  A call assigns the variable captured by the closures, and
    leaves the property of the object as it was. *)
Theorem scheduler_started_is_frozen (cs : list SchedulerCall)
    (scheduler : GarbageCollectionScheduler.t) :
  GarbageCollectionScheduler.started
    (afterSchedulerCalls cs getGarbageCollectionScheduler) = false
  /\ GarbageCollectionScheduler.started
       (GarbageCollectionScheduler.start scheduler).2
     = GarbageCollectionScheduler.started scheduler
  /\ GarbageCollectionScheduler.started
       (GarbageCollectionScheduler.stop scheduler).2
     = GarbageCollectionScheduler.started scheduler
  /\ GarbageCollectionScheduler.captured_started
       (GarbageCollectionScheduler.start scheduler).2 = true
  /\ GarbageCollectionScheduler.captured_started
       (GarbageCollectionScheduler.stop scheduler).2 = false.
Proof.
  split; [|repeat split].
  assert (H : forall s,
    GarbageCollectionScheduler.started (afterSchedulerCalls cs s)
    = GarbageCollectionScheduler.started s).
  { induction cs as [|c cs' IH]; intros s; [reflexivity|].
    cbn [afterSchedulerCalls fold_left]. unfold afterSchedulerCalls in IH.
    rewrite IH. by destruct c. }
  by rewrite H.
Qed.

(** * Further properties of the coordinator and the delegates *)

(** ** Mutation queues *)
Section MutationQueues.
Context {D : Type}.
Implicit Types (w : World D) (user : string).

Local Abbreviation users w := ((mutationQueues (store w)).*1).




End MutationQueues.

(** ** Transactions *)
Section Transactions.
Context {D : Type} `{MemoryReferenceDelegate D}.

(** X2. When the operation of a transaction rejects, [runTransaction]
    rejects with the same error and stops there: the world is the one the
    operation left, so the commit hook has not run and no committed event
    was raised. *)
Theorem runTransaction_rejected_operation {T : Type} (w w0 w1 : World D)
    (action : string) (mode : PersistenceTransactionMode)
    (transactionOperation : MemoryTransaction -> Eff (World D) T)
    (e : Error) :
  let txn := {| currentSequenceNumber := listenSequence (store w) + 1 |} in
  bind ListenSequence_next (fun _ => onTransactionStarted) w
    = (Normal tt, w0) ->
  transactionOperation txn w0 = (Abrupt e, w1) ->
  runTransaction action mode transactionOperation w = (Abrupt e, w1).
Proof.
  intros txn Hstart Hop. unfold runTransaction.
  erewrite bind_normal; [|reflexivity].
  unfold bind in Hstart. cbn in Hstart.
  unfold bind at 1.
  destruct (onTransactionStarted _) as [[[]|e0] w0']; [|discriminate].
  injection Hstart as ->.
  by rewrite (bind_abrupt _ _ _ _ _ Hop).
Qed.
End Transactions.

Lemma runTransaction_rejected_operation_witness :
  exists w1,
    runTransaction (D:=MemoryEagerDelegate.t) "Apply remote event" readwrite
      (fun txn =>
         MemoryEagerDelegate.removeReference txn Sample.roomA >>
         (fail "aborted" : Eff _ unit))
      (Sample.eager None) = (Abrupt (AssertionFailure "aborted"), w1)
    /\ MemoryEagerDelegate._orphanedDocuments (referenceDelegate (store w1))
       = Some [Sample.roomA]
    /\ calls w1 = [].
Proof.
  eexists. split.
  - apply (runTransaction_rejected_operation (Sample.eager None)
             (bind ListenSequence_next (fun _ => onTransactionStarted)
                (Sample.eager None)).2);
      reflexivity.
  - split; reflexivity.
Defined.

(** X3. Under the eager delegate every transaction starts from an empty
    candidate set, whatever an earlier transaction left behind (a rejected
    operation leaves its candidates in place).  A transaction whose
    operation does nothing therefore resolves and deletes nothing: the
    document cache, the target cache and the queues are as before, the
    scratch set is null again, one sequence number is used and one
    committed event is raised. *)
Theorem eager_transaction_starts_empty {T : Type}
    (w : World MemoryEagerDelegate.t) (action : string)
    (mode : PersistenceTransactionMode) (result : T) :
  exists w',
    runTransaction action mode (fun _ => ret result) w = (Normal result, w')
    /\ remoteDocumentCache (store w') = remoteDocumentCache (store w)
    /\ targetCache (store w') = targetCache (store w)
    /\ mutationQueues (store w') = mutationQueues (store w)
    /\ MemoryEagerDelegate._orphanedDocuments (referenceDelegate (store w'))
       = None
    /\ MemoryEagerDelegate.inMemoryPins (referenceDelegate (store w'))
       = MemoryEagerDelegate.inMemoryPins (referenceDelegate (store w))
    /\ listenSequence (store w') = listenSequence (store w) + 1
    /\ calls w'
       = (calls w ++ [OnCommittedEvent (listenSequence (store w) + 1)])%list.
Proof.
  destruct w as [[qs [d] tc n st [pins o]] cs].
  eexists. split; [cbv; reflexivity|]. cbn. repeat split.
Qed.

(** X4. Under the LRU delegate the hooks of a transaction are no-ops: when
    the operation resolves, [runTransaction] resolves with its result in
    the world the operation left, with the committed event recorded; the
    operation ran in the world it was started in with the sequence counter
    advanced by one.  A transaction never deletes a document by itself. *)
Theorem lru_transaction_is_the_operation {T : Type}
    (w w1 : World MemoryLruDelegate.t) (action : string)
    (mode : PersistenceTransactionMode)
    (transactionOperation :
       MemoryTransaction -> Eff (World MemoryLruDelegate.t) T)
    (result : T) :
  let S := listenSequence (store w) + 1 in
  let w0 := {| store := set_listenSequence S (store w); calls := calls w |} in
  transactionOperation {| currentSequenceNumber := S |} w0
    = (Normal result, w1) ->
  runTransaction action mode transactionOperation w
  = (Normal result, logged [OnCommittedEvent S] w1).
Proof.
  intros S w0 Hop. unfold runTransaction.
  erewrite bind_normal; [|reflexivity].
  erewrite bind_normal; [|reflexivity].
  erewrite bind_normal; [|exact Hop].
  reflexivity.
Qed.

Lemma lru_transaction_is_the_operation_witness :
  runTransaction "Release target" readwrite
    (fun txn => MemoryLruDelegate.removeReference txn Sample.roomB)
    Sample.lru
  = (Normal tt,
     logged [OnCommittedEvent 11]
       (MemoryLruDelegate.removeReference {| currentSequenceNumber := 11 |}
          Sample.roomB
          {| store := set_listenSequence 11 (store Sample.lru);
             calls := [] |}).2).
Proof.
  apply (lru_transaction_is_the_operation Sample.lru). reflexivity.
Defined.

(** A rejected iteration was rejected by one of the callbacks, which ran
    on the store the iteration started with. *)
Lemma forEach_abrupt {D X L} (f : X -> L -> Eff (World D) L) (xs : list X) :
  (forall x l (w0 : World D), store (f x l w0).2 = store w0) ->
  forall (l : L) (w0 : World D) e w1,
    PersistencePromise.forEach xs f l w0 = (Abrupt e, w1) ->
    exists x l' w2 w3,
      x ∈ xs /\ store w2 = store w0 /\ f x l' w2 = (Abrupt e, w3).
Proof.
  intros Hstore. induction xs as [|x xs IH]; intros l w0 e w1; [discriminate|].
  cbn [PersistencePromise.forEach].
  pose proof (Hstore x l w0) as Hs.
  destruct (f x l w0) as [[l1|e1] w1'] eqn:E; cbn [snd] in Hs.
  - intros Hrest.
    destruct (IH _ _ _ _ Hrest) as (y & l' & w2 & w3 & Hy & Hs2 & Ey).
    exists y, l', w2, w3. split; [by right|]. split; [congruence|done].
  - intros [= <- _]. exists x, l, w0, w1'. split; [by left|]. done.
Qed.

(** ** What the commit of the eager delegate deletes *)
Section EagerCommitScope.
Implicit Types (w : World MemoryEagerDelegate.t) (txn : MemoryTransaction)
  (key : DocumentKey) (pins : ReferenceSet.t) (orphans : JsSet.t).

Lemma isReferenced_rejection txn key w e w' :
  MemoryEagerDelegate.isReferenced txn key w = (Abrupt e, w') ->
  e = pinsNull
  /\ MemoryEagerDelegate.inMemoryPins (referenceDelegate (store w)) = None.
Proof.
  pose proof (isReferenced_eval txn key w) as E. cbv zeta in E.
  destruct (ReferenceSet.containsKey key (references _));
    [rewrite E; discriminate|].
  destruct (queuesContainKey key _); [rewrite E; discriminate|].
  destruct (MemoryEagerDelegate.inMemoryPins _); rewrite E;
    [discriminate|]. by intros [= <- _].
Qed.

(** Which documents the staged removals take out of a cache. *)
Lemma staged_lookup (referenced : DocumentKey -> bool) orphans
    (d : gmap (list string) nat) p :
  fold_left (fun d key => delete (path key) d)
    (filter (fun k => referenced k = false) orphans) d !! p
  = if existsb (fun k => bool_decide (path k = p) && negb (referenced k))
         orphans
    then None else d !! p.
Proof.
  rewrite deleteAll_lookup.
  destruct (existsb _ orphans) eqn:Hex.
  - apply existsb_exists in Hex as (k & Hin & Hk).
    apply andb_prop in Hk as [Hp Hr]. apply bool_decide_eq_true in Hp.
    apply negb_true_iff in Hr. rewrite decide_True; [done|].
    apply list_elem_of_fmap. exists k. split; [done|].
    apply list_elem_of_filter. split; [done|]. by apply list_elem_of_In.
  - rewrite decide_False; [done|].
    intros (k & -> & [Hr Hin]%list_elem_of_filter)%list_elem_of_fmap.
    assert (existsb (fun k0 => bool_decide (path k0 = path k)
                               && negb (referenced k0)) orphans = true)
      as Hyes; [|congruence].
    apply existsb_exists. exists k. split; [by apply list_elem_of_In|].
    rewrite Hr. by rewrite bool_decide_eq_true_2.
Qed.

(** X5. Inside a transaction and with a pin set installed, the commit hook
    of the eager delegate resolves and deletes exactly the documents
    named by an orphan candidate that [isReferenced] reports false for;
    every other document is kept as it was; in particular no document
    that is referenced is deleted, candidate or not.  The target cache,
    the queues, the sequence counter and the pin set are untouched and
    the scratch set is null afterwards. *)
Theorem eager_commit_deletes_unreferenced_candidates txn w pins orphans :
  MemoryEagerDelegate.inMemoryPins (referenceDelegate (store w)) = Some pins ->
  MemoryEagerDelegate._orphanedDocuments (referenceDelegate (store w))
    = Some orphans ->
  exists w',
    let before := docs (remoteDocumentCache (store w)) in
    let after := docs (remoteDocumentCache (store w')) in
    let unreferenced := fun k =>
      match (MemoryEagerDelegate.isReferenced txn k w).1 with
      | Normal false => true
      | _ => false
      end in
    MemoryEagerDelegate.onTransactionCommitted txn w = (Normal tt, w')
    /\ (forall p,
          after !! p =
          if existsb (fun k => bool_decide (path k = p) && unreferenced k)
               orphans
          then None else before !! p)
    /\ (forall key,
          (MemoryEagerDelegate.isReferenced txn key w).1 = Normal true ->
          after !! path key = before !! path key)
    /\ targetCache (store w') = targetCache (store w)
    /\ mutationQueues (store w') = mutationQueues (store w)
    /\ listenSequence (store w') = listenSequence (store w)
    /\ referenceDelegate (store w')
       = {| MemoryEagerDelegate.inMemoryPins := Some pins;
            MemoryEagerDelegate._orphanedDocuments := None |}.
Proof.
  intros Hpins Horph.
  destruct (onTransactionCommitted_eval txn w pins orphans Hpins Horph)
    as [cs E].
  cbv zeta in E. eexists. cbv zeta. split; [exact E|].
  assert (Hvalue : forall k,
    (MemoryEagerDelegate.isReferenced txn k w).1
    = Normal (referencedBy pins (store w) k)).
  { intros k. by destruct (isReferenced_referencedBy txn k w pins Hpins)
      as [cs' ->]. }
  assert (Hlookup : forall p,
    docs (applyChanges
            (filter (fun k => referencedBy pins (store w) k = false) orphans)
            (remoteDocumentCache (store w))) !! p
    = if existsb (fun k => bool_decide (path k = p)
                           && negb (referencedBy pins (store w) k)) orphans
      then None else docs (remoteDocumentCache (store w)) !! p).
  { intros p. apply (staged_lookup (referencedBy pins (store w))). }
  split; [|split; [|repeat split]].
  - intros p. cbn [store set_remoteDocumentCache remoteDocumentCache].
    rewrite Hlookup.
    assert (Hext : forall k,
      (bool_decide (path k = p) && negb (referencedBy pins (store w) k))
      = (bool_decide (path k = p)
         && match (MemoryEagerDelegate.isReferenced txn k w).1 with
            | Normal false => true
            | _ => false
            end)).
    { intros k. rewrite Hvalue. by destruct (referencedBy pins (store w) k). }
    assert (Hall : forall ks : list DocumentKey,
      existsb (fun k => bool_decide (path k = p)
                        && negb (referencedBy pins (store w) k)) ks
      = existsb (fun k => bool_decide (path k = p)
                          && match (MemoryEagerDelegate.isReferenced txn k w).1
                             with
                             | Normal false => true
                             | _ => false
                             end) ks).
    { induction ks as [|k ks IH]; [done|].
      cbn [existsb]. by rewrite Hext, IH. }
    by rewrite Hall.
  - intros key Href. rewrite Hvalue in Href. apply Normal_inj in Href.
    cbn [store set_remoteDocumentCache remoteDocumentCache].
    rewrite Hlookup.
    destruct (existsb _ orphans) eqn:Hex; [|done].
    apply existsb_exists in Hex as (k & _ & Hk).
    apply andb_prop in Hk as [Hp Hr]. apply bool_decide_eq_true in Hp.
    apply negb_true_iff in Hr.
    rewrite (referencedBy_path pins (store w) k key Hp) in Hr. congruence.
Qed.

Lemma eager_commit_deletes_unreferenced_candidates_witness :
  exists w',
    MemoryEagerDelegate.onTransactionCommitted Sample.txn11
      (Sample.eager (Some [Sample.roomA; Sample.roomB])) = (Normal tt, w')
    /\ docs (remoteDocumentCache (store w')) !! ["rooms"; "a"] = None
    /\ docs (remoteDocumentCache (store w')) !! ["rooms"; "b"] = Some 3%nat.
Proof.
  pose proof (eager_commit_deletes_unreferenced_candidates Sample.txn11
    (Sample.eager (Some [Sample.roomA; Sample.roomB])) []
    [Sample.roomA; Sample.roomB] eq_refl eq_refl) as H.
  destruct H as [w' H]. cbv zeta in H.
  destruct H as (E & Hdocs & Hkeep & _).
  exists w'. split; [exact E|]. split.
  - exact (Hdocs ["rooms"; "a"]).
  - exact (Hkeep Sample.roomB eq_refl).
Defined.

(** X6. When the commit hook of the eager delegate rejects, it has changed
    nothing: no document is deleted and the scratch set is still in
    place.  It rejects only with the assertion failure of a closed
    window or with the [TypeError] of a pin set that was never
    installed. *)
Theorem eager_commit_rejection_changes_nothing txn w e w' :
  MemoryEagerDelegate.onTransactionCommitted txn w = (Abrupt e, w') ->
  store w' = store w
  /\ (e = scratchSetFailure
      /\ MemoryEagerDelegate._orphanedDocuments (referenceDelegate (store w))
         = None
      \/ e = pinsNull
         /\ MemoryEagerDelegate.inMemoryPins (referenceDelegate (store w))
            = None).
Proof.
  unfold MemoryEagerDelegate.onTransactionCommitted.
  destruct (MemoryEagerDelegate._orphanedDocuments
              (referenceDelegate (store w))) as [orphans|] eqn:Horph.
  - rewrite (bind_normal _ _ _ _ _ (orphanedDocuments_in_window w _ Horph)).
    pose proof (forEach_store
      (fun key (changeBuffer : ChangeBuffer) =>
         let! isReferenced := MemoryEagerDelegate.isReferenced txn key in
         if negb isReferenced
         then ret (removeEntry key changeBuffer)
         else ret changeBuffer)
      (commitCallback_store txn) orphans newChangeBuffer w) as Hs.
    destruct (PersistencePromise.forEach orphans _ newChangeBuffer w)
      as [[buf|e1] w1] eqn:E.
    + rewrite (bind_normal _ _ _ _ _ E). discriminate.
    + rewrite (bind_abrupt _ _ _ _ _ E). intros [= <- <-].
      split; [exact Hs|]. right.
      apply forEach_abrupt in E as (x & l0 & w0 & w2 & _ & Hs0 & Ex);
        [|apply commitCallback_store].
      unfold bind in Ex.
      destruct (MemoryEagerDelegate.isReferenced txn x w0)
        as [[[]|e2] w3] eqn:Er; try discriminate.
      injection Ex as <- _.
      destruct (isReferenced_rejection txn x w0 _ _ Er) as [-> Hnull].
      split; [done|]. by rewrite <- Hs0.
  - rewrite (bind_abrupt _ _ _ _ _ (orphanedDocuments_outside_window w Horph)).
    intros [= <- <-]. split; [done|]. by left.
Qed.
End EagerCommitScope.

Lemma eager_commit_rejection_changes_nothing_witness :
  let w :=
    withNewDelegate
      {| MemoryEagerDelegate.inMemoryPins := None;
         MemoryEagerDelegate._orphanedDocuments := Some [Sample.roomA] |}
      (Sample.eager None) in
  exists w',
    MemoryEagerDelegate.onTransactionCommitted Sample.txn11 w
      = (Abrupt pinsNull, w')
    /\ store w' = store w.
Proof.
  cbv zeta. eexists. split; [vm_compute; reflexivity|].
  refine (proj1 (eager_commit_rejection_changes_nothing Sample.txn11 _
                   pinsNull _ _)).
  vm_compute. reflexivity.
Defined.

Lemma filter_none {A} (P : A -> Prop) `{forall x, Decision (P x)}
    (l : list A) :
  (forall x, x ∈ l -> ~ P x) -> filter P l = [].
Proof.
  induction l as [|x l IH]; intros Hl; [done|].
  rewrite filter_cons, decide_False by (apply Hl; left).
  apply IH. intros y Hy. apply Hl. by right.
Qed.

(** ** More on the LRU sweep *)
Section LruSweepMore.
Implicit Types (w : World MemoryLruDelegate.t) (txn : MemoryTransaction)
  (key : DocumentKey) (upperBound : ListenSequenceNumber)
  (pins : ReferenceSet.t).

Local Abbreviation sweepCallback txn upperBound :=
  (fun key (locals : Z * ChangeBuffer) =>
     let! isPinned := MemoryLruDelegate.isPinned txn key upperBound in
     if negb isPinned
     then ret (locals.1 + 1, removeEntry key locals.2)
     else ret locals).

(** What a sweep leaves of a document, with a pin set installed. *)
Lemma sweep_lookup txn upperBound w pins p o :
  MemoryLruDelegate.inMemoryPins (referenceDelegate (store w)) = Some pins ->
  docs (remoteDocumentCache (store w)) !! p = Some o ->
  docs (remoteDocumentCache
          (store (MemoryLruDelegate.removeOrphanedDocuments txn upperBound w).2))
    !! p
  = if pinnedBy pins (store w) upperBound {| oid := o; path := p |}
    then Some o else None.
Proof.
  intros Hpins Hp.
  destruct (removeOrphanedDocuments_eval txn upperBound w pins Hpins)
    as [cs E].
  cbv zeta in E. rewrite E.
  cbn [snd store set_remoteDocumentCache remoteDocumentCache applyChanges docs].
  rewrite deleteAll_lookup.
  destruct (pinnedBy pins (store w) upperBound {| oid := o; path := p |})
    eqn:Hpin.
  - rewrite decide_False; [done|].
    intros (k & Ek & [Hk _]%list_elem_of_filter)%list_elem_of_fmap.
    rewrite (pinnedBy_path _ _ _ k {| oid := o; path := p |}) in Hk by done.
    congruence.
  - rewrite decide_True; [done|].
    apply list_elem_of_fmap. exists {| oid := o; path := p |}.
    split; [done|]. apply list_elem_of_filter. split; [done|].
    by apply elem_of_documentKeys.
Qed.

Lemma sweep_lookup_None txn upperBound w pins p :
  MemoryLruDelegate.inMemoryPins (referenceDelegate (store w)) = Some pins ->
  docs (remoteDocumentCache (store w)) !! p = None ->
  docs (remoteDocumentCache
          (store (MemoryLruDelegate.removeOrphanedDocuments txn upperBound w).2))
    !! p = None.
Proof.
  intros Hpins Hp.
  destruct (removeOrphanedDocuments_eval txn upperBound w pins Hpins)
    as [cs E].
  cbv zeta in E. rewrite E.
  cbn [snd store set_remoteDocumentCache remoteDocumentCache applyChanges docs].
  rewrite deleteAll_lookup. by destruct (decide _).
Qed.

(** Whatever its outcome, a sweep changes the document cache only. *)
Lemma sweep_changes_documents_only txn upperBound w :
  exists cache,
    store (MemoryLruDelegate.removeOrphanedDocuments txn upperBound w).2
    = set_remoteDocumentCache cache (store w).
Proof.
  unfold MemoryLruDelegate.removeOrphanedDocuments.
  destruct (forEachDocumentKey txn (sweepCallback txn upperBound)
              (0, newChangeBuffer) w) as [[l|e] w1] eqn:E;
    assert (Hs : store w1 = store w)
      by (pose proof (forEach_store (sweepCallback txn upperBound)
            (sweepCallback_store txn upperBound)
            (documentKeys (remoteDocumentCache (store w)))
            (0, newChangeBuffer) w) as Hs;
          unfold forEachDocumentKey in E; by rewrite E in Hs).
  - rewrite (bind_normal _ _ _ _ _ E). cbn. rewrite Hs. eauto.
  - rewrite (bind_abrupt _ _ _ _ _ E). cbn [snd]. rewrite Hs.
    exists (remoteDocumentCache (store w)). by destruct (store w).
Qed.

Lemma pinnedBy_documents pins cache (p : MemoryPersistence MemoryLruDelegate.t)
    upperBound key :
  pinnedBy pins (set_remoteDocumentCache cache p) upperBound key
  = pinnedBy pins p upperBound key.
Proof. reflexivity. Qed.

(** X8. With a pin set installed, sweeping twice with the same upper bound
    is sweeping once: the second [removeOrphanedDocuments] finds nothing
    to delete, returns 0 and leaves the store as the first one left it. *)
Theorem lru_sweep_twice txn txn' upperBound w pins :
  MemoryLruDelegate.inMemoryPins (referenceDelegate (store w)) = Some pins ->
  let first := MemoryLruDelegate.removeOrphanedDocuments txn upperBound w in
  let second :=
    MemoryLruDelegate.removeOrphanedDocuments txn' upperBound first.2 in
  second.1 = Normal 0 /\ store second.2 = store first.2.
Proof.
  intros Hpins first second.
  destruct (removeOrphanedDocuments_eval txn upperBound w pins Hpins)
    as [cs E]. cbv zeta in E.
  assert (Hpins1 : MemoryLruDelegate.inMemoryPins
                     (referenceDelegate (store first.2)) = Some pins).
  { unfold first. by rewrite E. }
  destruct (removeOrphanedDocuments_eval txn' upperBound first.2 pins Hpins1)
    as [cs' E']. cbv zeta in E'.
  assert (Hnone :
    filter (fun k => pinnedBy pins (store first.2) upperBound k = false)
      (documentKeys (remoteDocumentCache (store first.2))) = []).
  { apply filter_none. intros k Hk Hfalse.
    apply elem_of_documentKeys in Hk.
    destruct (docs (remoteDocumentCache (store w)) !! path k) as [o|] eqn:Hw.
    - pose proof (sweep_lookup txn upperBound w pins (path k) o Hpins Hw)
        as Hl.
      fold first in Hl. rewrite Hk in Hl.
      unfold first in Hfalse. rewrite E in Hfalse. cbn [snd store] in Hfalse.
      rewrite pinnedBy_documents in Hfalse.
      rewrite (pinnedBy_path _ _ _ {| oid := o; path := path k |} k) in Hl
        by done.
      rewrite Hfalse in Hl. discriminate.
    - pose proof (sweep_lookup_None txn upperBound w pins (path k) Hpins Hw)
        as Hl.
      fold first in Hl. congruence. }
  unfold second. rewrite E'. rewrite Hnone. cbn [fst snd length].
  split; [reflexivity|].
  cbn. by destruct (store first.2) as [? [?] ? ? ? ?].
Qed.

(** X9. With a pin set installed, a larger upper bound only deletes more:
    a document that survives the sweep with upper bound [U'] survives,
    from the same world, the sweep with any upper bound [U <= U']. *)
Theorem lru_sweep_monotone txn txn' (U U' : ListenSequenceNumber) w pins p o :
  MemoryLruDelegate.inMemoryPins (referenceDelegate (store w)) = Some pins ->
  U <= U' ->
  docs (remoteDocumentCache
          (store (MemoryLruDelegate.removeOrphanedDocuments txn' U' w).2))
    !! p = Some o ->
  docs (remoteDocumentCache
          (store (MemoryLruDelegate.removeOrphanedDocuments txn U w).2))
    !! p = Some o.
Proof.
  intros Hpins HU Hsurvives.
  destruct (docs (remoteDocumentCache (store w)) !! p) as [o0|] eqn:Hw.
  - rewrite (sweep_lookup txn' U' w pins p o0 Hpins Hw) in Hsurvives.
    rewrite (sweep_lookup txn U w pins p o0 Hpins Hw).
    destruct (pinnedBy pins (store w) U' {| oid := o0; path := p |})
      eqn:Hpin; [|discriminate].
    assert (pinnedBy pins (store w) U {| oid := o0; path := p |} = true)
      as ->; [|done].
    unfold pinnedBy in *.
    apply orb_true_iff in Hpin as [Hpin|Hpin]; [by rewrite Hpin|].
    apply orb_true_iff. right.
    unfold orphanedAfter in *.
    destruct (MemoryLruDelegate.orphanedSequenceNumbers _ !! _) as [at'|];
      [|done].
    apply bool_decide_eq_true in Hpin. apply bool_decide_eq_true. lia.
  - rewrite (sweep_lookup_None txn' U' w pins p Hpins Hw) in Hsurvives.
    discriminate.
Qed.
End LruSweepMore.

Lemma lru_sweep_twice_witness :
  (MemoryLruDelegate.removeOrphanedDocuments Sample.txn11 10
     (MemoryLruDelegate.removeOrphanedDocuments Sample.txn11 10 Sample.lru).2).1
  = Normal 0.
Proof.
  exact (proj1 (lru_sweep_twice Sample.txn11 Sample.txn11 10 Sample.lru []
                  eq_refl)).
Defined.

Lemma lru_sweep_monotone_witness :
  docs (remoteDocumentCache
          (store (MemoryLruDelegate.removeOrphanedDocuments Sample.txn11 4
                    Sample.lru).2))
    !! ["rooms"; "b"] = Some 3%nat.
Proof.
  apply (lru_sweep_monotone Sample.txn11 Sample.txn11 4 10 Sample.lru []);
    [reflexivity | lia | vm_compute; reflexivity].
Defined.

(** ** Sweeps without a pin set *)

(** An iteration rejects as soon as one callback rejects on the store the
    iteration runs on. *)
Lemma forEach_rejects {D X L} (f : X -> L -> Eff (World D) L) (xs : list X)
    (x : X) :
  (forall y l (w0 : World D), store (f y l w0).2 = store w0) ->
  x ∈ xs ->
  forall (l : L) (w : World D),
    (forall l0 w0, store w0 = store w -> exists e w1, f x l0 w0 = (Abrupt e, w1))
    -> exists e w', PersistencePromise.forEach xs f l w = (Abrupt e, w').
Proof.
  intros Hstore. induction xs as [|y xs IH]; intros Hx l w Hrej.
  - by apply elem_of_nil in Hx.
  - cbn [PersistencePromise.forEach].
    pose proof (Hstore y l w) as Hs.
    destruct (f y l w) as [[l1|e1] w1] eqn:E; cbn [snd] in Hs; [|eauto].
    apply elem_of_cons in Hx as [->|Hx].
    + destruct (Hrej l w eq_refl) as (e & w2 & E'). congruence.
    + apply IH; [done|]. intros l0 w0 Hw0. apply Hrej. congruence.
Qed.

(** X7. A sweep of the LRU delegate rejects exactly when no pin set was
    ever installed and some resident document is held by no mutation
    queue; the error is then the [TypeError] of the null pin set, and the
    sweep has deleted nothing. *)
Theorem lru_sweep_rejects_without_pins (txn : MemoryTransaction)
    (upperBound : ListenSequenceNumber) (w : World MemoryLruDelegate.t) :
  ((exists e w',
      MemoryLruDelegate.removeOrphanedDocuments txn upperBound w
      = (Abrupt e, w'))
   <-> MemoryLruDelegate.inMemoryPins (referenceDelegate (store w)) = None
       /\ exists key,
            key ∈ documentKeys (remoteDocumentCache (store w))
            /\ queuesContainKey key (mutationQueues (store w)) = false)
  /\ (forall e w',
        MemoryLruDelegate.removeOrphanedDocuments txn upperBound w
        = (Abrupt e, w') ->
        e = pinsNull /\ store w' = store w).
Proof.
  set (callback := fun key (locals : Z * ChangeBuffer) =>
     let! isPinned := MemoryLruDelegate.isPinned txn key upperBound in
     if negb isPinned
     then ret (locals.1 + 1, removeEntry key locals.2)
     else ret locals).
  assert (Hcb : forall x l (w0 : World MemoryLruDelegate.t),
            store (callback x l w0).2 = store w0)
    by (intros; apply sweepCallback_store).
  assert (Hrej : forall e w',
    MemoryLruDelegate.removeOrphanedDocuments txn upperBound w
    = (Abrupt e, w') ->
    e = pinsNull /\ store w' = store w
    /\ MemoryLruDelegate.inMemoryPins (referenceDelegate (store w)) = None
    /\ exists key,
         key ∈ documentKeys (remoteDocumentCache (store w))
         /\ queuesContainKey key (mutationQueues (store w)) = false).
  { intros e w'. unfold MemoryLruDelegate.removeOrphanedDocuments.
    fold callback.
    destruct (forEachDocumentKey txn callback (0, newChangeBuffer) w)
      as [[l|e1] w1] eqn:E.
    - rewrite (bind_normal _ _ _ _ _ E). discriminate.
    - rewrite (bind_abrupt _ _ _ _ _ E). intros [= <- <-].
      unfold forEachDocumentKey in E.
      pose proof (forEach_store callback Hcb
        (documentKeys (remoteDocumentCache (store w)))
        (0, newChangeBuffer) w) as Hs.
      rewrite E in Hs. cbn [snd] in Hs.
      apply forEach_abrupt in E as (x & l' & w2 & w3 & Hx & Hs2 & Ex);
        [|exact Hcb].
      unfold callback, bind in Ex.
      pose proof (isPinned_eval txn x upperBound w2) as Ev. cbv zeta in Ev.
      rewrite Hs2 in Ev.
      destruct (queuesContainKey x (mutationQueues (store w))) eqn:Hq.
      { rewrite Ev in Ex. discriminate. }
      destruct (MemoryLruDelegate.inMemoryPins (referenceDelegate (store w)))
        eqn:Hpins.
      { rewrite Ev in Ex. cbn in Ex. by destruct (_ || _). }
      rewrite Ev in Ex. injection Ex as <- _. eauto 10. }
  split; [split|].
  - intros (e & w' & E). by destruct (Hrej e w' E) as (_ & _ & ? & ?).
  - intros (Hpins & key & Hkey & Hq).
    destruct (forEach_rejects callback
      (documentKeys (remoteDocumentCache (store w))) key Hcb Hkey
      (0, newChangeBuffer) w) as (e & w' & E).
    + intros l0 w0 Hw0. unfold callback, bind.
      pose proof (isPinned_eval txn key upperBound w0) as Ev. cbv zeta in Ev.
      rewrite Hw0, Hq, Hpins in Ev. rewrite Ev. eauto.
    + exists e, w'. unfold MemoryLruDelegate.removeOrphanedDocuments.
      fold callback. by erewrite bind_abrupt.
  - intros e w' E. by destruct (Hrej e w' E) as (? & ? & _).
Qed.

(** ** The orphan sequence numbers over time *)
Section OrphanNumbers.
Implicit Types (w : World MemoryLruDelegate.t) (txn : MemoryTransaction)
  (key : DocumentKey).

Local Abbreviation numbers w :=
  (MemoryLruDelegate.orphanedSequenceNumbers (referenceDelegate (store w))).

Local Abbreviation pinsOf w :=
  (MemoryLruDelegate.inMemoryPins (referenceDelegate (store w))).

Lemma lru_fire_eval (e : ReferenceEvent) txn key w :
  fire e txn key w =
  (Normal tt,
   (MemoryLruDelegate.orphanedSequenceNumbers_set key
      (currentSequenceNumber txn) w).2).
Proof. by destruct e. Qed.

Lemma lruCall_delegate (c : MemoryTransaction * LruCall) w :
  pinsOf (lruCall c w) = pinsOf w
  /\ forall p,
       numbers (lruCall c w) !! p = numbers w !! p
       \/ exists key,
            c.2 = Delegate (OnKey (match c.2 with
                                   | Delegate (OnKey e _) => e
                                   | _ => AddReference
                                   end) key)
            /\ path key = p
            /\ numbers (lruCall c w) !! p = Some (currentSequenceNumber c.1).
Proof.
  destruct c as [txn [[e key|targetData]| |upperBound]]; unfold lruCall;
    cbn [fst snd call].
  - rewrite lru_fire_eval. cbn. split; [done|]. intros p.
    destruct (decide (path key = p)) as [<-|Hne].
    + right. exists key. by rewrite lookup_insert_eq.
    + left. by rewrite lookup_insert_ne.
  - cbn. auto.
  - cbn. auto.
  - destruct (sweep_changes_documents_only txn upperBound w) as [cache ->].
    cbn. auto.
Qed.

(** X10. No operation of the LRU delegate ever removes an orphan sequence
    number or touches the pin set: after any sequence of delegate calls,
    commit hooks and sweeps, a key that had an orphan sequence number
    still has one, also when the sweep has deleted its document, and the
    pin set is the one that was installed. *)
Theorem lru_orphan_numbers_never_removed
    (cs : list (MemoryTransaction * LruCall)) w p :
  (is_Some (numbers w !! p) -> is_Some (numbers (afterLruCalls cs w) !! p))
  /\ pinsOf (afterLruCalls cs w) = pinsOf w.
Proof.
  revert w. induction cs as [|c cs IH]; intros w; [done|].
  cbn [afterLruCalls fold_left]. unfold afterLruCalls in IH.
  destruct (IH (lruCall c w)) as [IHn IHp].
  destruct (lruCall_delegate c w) as [Hp Hn]. split.
  - intros Hsome. apply IHn.
    destruct (Hn p) as [-> | (key & _ & _ & ->)]; [done|eauto].
  - by rewrite IHp.
Qed.
End OrphanNumbers.

Lemma lru_orphan_numbers_never_removed_witness :
  let w :=
    afterLruCalls [(Sample.txn11, Sweep 10); (Sample.txn11, Commit)]
      Sample.lru in
  docs (remoteDocumentCache (store w)) !! ["rooms"; "a"] = None
  /\ is_Some (MemoryLruDelegate.orphanedSequenceNumbers
                (referenceDelegate (store w)) !! ["rooms"; "a"]).
Proof.
  cbv zeta. split; [vm_compute; reflexivity|].
  apply (lru_orphan_numbers_never_removed
           [(Sample.txn11, Sweep 10); (Sample.txn11, Commit)] Sample.lru).
  vm_compute. eauto.
Defined.

(** ** The sequence number count of the collector *)
Section SequenceNumberCount.
Variable entryOid : list string -> nat.
Implicit Types (w : World MemoryLruDelegate.t) (txn : MemoryTransaction)
  (pins : ReferenceSet.t).

Local Abbreviation entries w :=
  (map_to_list
     (MemoryLruDelegate.orphanedSequenceNumbers (referenceDelegate (store w)))).

Local Abbreviation entryKey entry :=
  {| oid := entryOid (entry : list string * Z).1; path := entry.1 |}.

(** An entry is never pinned by its own sequence number: with the upper
    bound set to it, [isPinned] is the reachability of the key. *)
Lemma pinnedBy_own_number pins (p : MemoryPersistence MemoryLruDelegate.t)
    (entry : list string * Z) :
  MemoryLruDelegate.orphanedSequenceNumbers (referenceDelegate p) !! entry.1
    = Some entry.2 ->
  pinnedBy pins p entry.2 (entryKey entry) = reachable pins p (entryKey entry).
Proof.
  intros Hentry. unfold pinnedBy, reachable, orphanedAfter. cbn [path].
  rewrite Hentry, bool_decide_eq_false_2 by lia. by rewrite orb_false_r.
Qed.

Lemma fold_left_ext_in {A B} (g g' : A -> B -> A) (l : list B) :
  (forall a x, x ∈ l -> g a x = g' a x) ->
  forall a, fold_left g l a = fold_left g' l a.
Proof.
  induction l as [|x l IH]; intros Hg a; [done|].
  cbn. rewrite Hg by left. apply IH. intros a' y Hy. apply Hg. by right.
Qed.

Lemma count_fold {B} (skip : B -> bool) (l : list B) : forall n : Z,
  fold_left (fun n x => if negb (skip x) then n + 1 else n) l n
  = n + Z.of_nat (length (filter (fun x => skip x = false) l)).
Proof.
  induction l as [|x l IH]; intros n; cbn [fold_left].
  - cbn. lia.
  - rewrite IH, filter_cons. destruct (skip x); cbn [negb].
    + by rewrite decide_False.
    + rewrite decide_True by done. cbn [length]. lia.
Qed.

(** The iteration over the orphan sequence numbers, with a pin set
    installed: the callback sees the number of every entry whose key is
    not reachable. *)
Lemma forEachOrphanedDocumentSequenceNumber_eval {L} txn
    (f : Z -> L -> L) (l : L) w pins :
  MemoryLruDelegate.inMemoryPins (referenceDelegate (store w)) = Some pins ->
  exists cs,
    MemoryLruDelegate.forEachOrphanedDocumentSequenceNumber entryOid txn f l w
    = (Normal
         (fold_left
            (fun l entry =>
               if negb (reachable pins (store w) (entryKey entry))
               then f entry.2 l else l)
            (entries w) l),
       logged cs w).
Proof.
  intros Hpins.
  unfold MemoryLruDelegate.forEachOrphanedDocumentSequenceNumber.
  destruct (forEach_resolved
    (fun p => MemoryLruDelegate.inMemoryPins (referenceDelegate p) = Some pins)
    (fun (entry : list string * Z) (locals : L) =>
       let! isPinned :=
         MemoryLruDelegate.isPinned txn (entryKey entry) entry.2 in
       if negb isPinned then ret (f entry.2 locals)
       else PersistencePromise.resolve locals)
    (fun p entry (l : L) =>
       if negb (pinnedBy pins p entry.2 (entryKey entry))
       then f entry.2 l else l))
    with (xs := entries w) (l := l) (w := w) as [cs E]; [|done|].
  - intros x l0 w0 Hw0.
    destruct (isPinned_pinnedBy txn (entryKey x) x.2 w0 pins Hw0) as [cs E].
    exists cs. rewrite (bind_normal _ _ _ _ _ E).
    by destruct (pinnedBy pins (store w0) x.2 (entryKey x)).
  - exists cs. rewrite E. do 2 f_equal.
    apply fold_left_ext_in. intros a x Hx.
    rewrite pinnedBy_own_number; [done|].
    by apply elem_of_map_to_list'.
Qed.

Lemma getSequenceNumberCount_eval txn w pins :
  MemoryLruDelegate.inMemoryPins (referenceDelegate (store w)) = Some pins ->
  exists cs,
    MemoryLruDelegate.getSequenceNumberCount entryOid txn w
    = (Normal
         (Z.of_nat (size (targets (targetCache (store w))))
          + Z.of_nat
              (length
                 (filter
                    (fun entry =>
                       reachable pins (store w) (entryKey entry) = false)
                    (entries w)))),
       logged cs w).
Proof.
  intros Hpins. unfold MemoryLruDelegate.getSequenceNumberCount,
    MemoryLruDelegate.orphanedDocumentCount.
  destruct (forEachOrphanedDocumentSequenceNumber_eval txn
              (fun _ n => n + 1) 0 w pins Hpins) as [cs ->].
  exists cs. cbn [fst snd]. unfold MemoryLruDelegate.getTargetCount, gets.
  rewrite store_logged.
  rewrite (count_fold (fun entry => reachable pins (store w) (entryKey entry))).
  reflexivity.
Qed.

(** X11. With a pin set installed, [getSequenceNumberCount] resolves to
    the number of targets plus the number of orphan sequence numbers
    whose key is in no mutation queue, not pinned and in no target; an
    entry is never held back by its own sequence number; the store is
    left alone. *)
Theorem lru_sequence_number_count txn w pins :
  MemoryLruDelegate.inMemoryPins (referenceDelegate (store w)) = Some pins ->
  exists w',
    MemoryLruDelegate.getSequenceNumberCount entryOid txn w
    = (Normal
         (Z.of_nat (size (targets (targetCache (store w))))
          + Z.of_nat
              (length
                 (filter
                    (fun entry =>
                       queuesContainKey (entryKey entry)
                         (mutationQueues (store w)) = false
                       /\ ReferenceSet.containsKey (entryKey entry) pins
                          = false
                       /\ ReferenceSet.containsKey (entryKey entry)
                            (references (targetCache (store w))) = false)
                    (entries w)))),
       w')
    /\ store w' = store w.
Proof.
  intros Hpins.
  destruct (getSequenceNumberCount_eval txn w pins Hpins) as [cs ->].
  exists (logged cs w). split; [|reflexivity]. do 5 f_equal.
  apply list_filter_iff. intros entry. unfold reachable.
  destruct (queuesContainKey _ _), (ReferenceSet.containsKey _ pins),
    (ReferenceSet.containsKey _ (references _)); cbn; intuition congruence.
Qed.

(** X12. A sweep does not change the sequence number count: with a pin
    set installed, [getSequenceNumberCount] after
    [removeOrphanedDocuments] is what it was before, since the orphan
    sequence number of a deleted document stays in place. *)
Theorem lru_sweep_keeps_sequence_number_count txn txn' upperBound w pins :
  MemoryLruDelegate.inMemoryPins (referenceDelegate (store w)) = Some pins ->
  (MemoryLruDelegate.getSequenceNumberCount entryOid txn
     (MemoryLruDelegate.removeOrphanedDocuments txn' upperBound w).2).1
  = (MemoryLruDelegate.getSequenceNumberCount entryOid txn w).1.
Proof.
  intros Hpins.
  destruct (sweep_changes_documents_only txn' upperBound w) as [cache Hs].
  assert (Hpins' : MemoryLruDelegate.inMemoryPins
    (referenceDelegate
       (store (MemoryLruDelegate.removeOrphanedDocuments txn' upperBound w).2))
    = Some pins) by (by rewrite Hs).
  destruct (getSequenceNumberCount_eval txn _ pins Hpins') as [cs ->].
  destruct (getSequenceNumberCount_eval txn w pins Hpins) as [cs' ->].
  cbn [fst]. by rewrite Hs.
Qed.
End SequenceNumberCount.

Lemma lru_sequence_number_count_witness :
  exists w',
    MemoryLruDelegate.getSequenceNumberCount (fun _ => 0%nat) Sample.txn11
      Sample.lru = (Normal 2, w').
Proof.
  destruct (lru_sequence_number_count (fun _ => 0%nat) Sample.txn11
              Sample.lru [] eq_refl) as (w' & E & _).
  exists w'.
  assert (C : (MemoryLruDelegate.getSequenceNumberCount (fun _ => 0%nat)
                 Sample.txn11 Sample.lru).1 = Normal 2)
    by (vm_compute; reflexivity).
  rewrite E in C. cbn [fst] in C. apply Normal_inj in C.
  rewrite E, C. reflexivity.
Defined.

Lemma lru_sweep_keeps_sequence_number_count_witness :
  (MemoryLruDelegate.getSequenceNumberCount (fun _ => 0%nat) Sample.txn11
     (MemoryLruDelegate.removeOrphanedDocuments Sample.txn11 10
        Sample.lru).2).1
  = (MemoryLruDelegate.getSequenceNumberCount (fun _ => 0%nat) Sample.txn11
       Sample.lru).1.
Proof.
  exact (lru_sweep_keeps_sequence_number_count (fun _ => 0%nat) Sample.txn11
           Sample.txn11 10 Sample.lru [] eq_refl).
Defined.

(** ** More on the eager delegate *)
Section EagerMore.
Implicit Types (w : World MemoryEagerDelegate.t) (txn : MemoryTransaction)
  (key : DocumentKey) (pins : ReferenceSet.t) (orphans : JsSet.t).

Local Abbreviation scratch w :=
  (MemoryEagerDelegate._orphanedDocuments (referenceDelegate (store w))).

Local Abbreviation pinsOf w :=
  (MemoryEagerDelegate.inMemoryPins (referenceDelegate (store w))).

Local Abbreviation withScratch o w :=
  ((MemoryEagerDelegate.set_orphanedDocuments o w).2).

Lemma removeTarget_eval txn (targetData : TargetData) w orphans :
  scratch w = Some orphans ->
  MemoryEagerDelegate.removeTarget txn targetData w =
  removeTargetData txn targetData
    (withScratch
       (Some (fold_left (fun s k => JsSet.add k s)
                (ReferenceSet.referencesForId (targetId targetData)
                   (references (targetCache (store w))))
                orphans))
       w).
Proof.
  intros H. unfold MemoryEagerDelegate.removeTarget.
  erewrite bind_normal; [|reflexivity].
  by rewrite (bind_normal _ _ _ _ _ (iter_add_eval _ w _ H)).
Qed.

(** X16. [isReferenced] of the eager delegate is the lazy disjunction of
    target cache, mutation queues and pin set, in that order: the
    recorded calls stop after the first source that holds the key.  The
    pin set is touched only when the other two do not hold the key; if it
    was never installed, the lookup then rejects with a [TypeError]. *)
Theorem eager_isReferenced_lazy_or txn key w :
  let c := ReferenceSet.containsKey key (references (targetCache (store w))) in
  let a := queuesContainKey key (mutationQueues (store w)) in
  let asked :=
    (TargetCache_containsKey (path key) ::
     if c then [] else queueCalls key (mutationQueues (store w)))%list in
  MemoryEagerDelegate.isReferenced txn key w =
  if c || a then (Normal true, logged asked w)
  else
    match pinsOf w with
    | Some pins =>
        (Normal (ReferenceSet.containsKey key pins),
         logged (asked ++ [InMemoryPins_containsKey (path key)]) w)
    | None => (Abrupt pinsNull, logged asked w)
    end.
Proof.
  cbv zeta. pose proof (isReferenced_eval txn key w) as E. cbv zeta in E.
  destruct (ReferenceSet.containsKey key (references _)); [exact E|].
  destruct (queuesContainKey key _); [exact E|].
  destruct (pinsOf w); exact E.
Qed.

Lemma call_keeps_pins txn (c : DelegateCall) w :
  pinsOf (call txn c w).2 = pinsOf w.
Proof.
  assert (Hadd : forall k w0,
    pinsOf (MemoryEagerDelegate.orphanedDocuments_add k w0).2 = pinsOf w0).
  { intros k w0. unfold MemoryEagerDelegate.orphanedDocuments_add,
      MemoryEagerDelegate.orphanedDocuments, bind.
    by destruct (scratch w0). }
  assert (Hdel : forall k w0,
    pinsOf (MemoryEagerDelegate.orphanedDocuments_delete k w0).2 = pinsOf w0).
  { intros k w0. unfold MemoryEagerDelegate.orphanedDocuments_delete,
      MemoryEagerDelegate.orphanedDocuments, bind.
    by destruct (scratch w0). }
  assert (Hseq : forall (m : Eff (World MemoryEagerDelegate.t) unit) w0,
    pinsOf (m w0).2 = pinsOf w0 ->
    pinsOf (bind m (fun _ => PersistencePromise.resolve tt) w0).2 = pinsOf w0).
  { intros m w0 Hm. unfold bind. by destruct (m w0) as [[[]|e] w1]. }
  destruct c as [[] key|targetData]; cbn [call fire addReference
    removeReference removeMutationReference updateLimboDocument removeTarget
    eager_delegate].
  - by apply Hseq.
  - by apply Hseq.
  - by apply Hseq.
  - unfold MemoryEagerDelegate.updateLimboDocument, bind.
    pose proof (isReferenced_store txn key w) as Hs.
    destruct (MemoryEagerDelegate.isReferenced txn key w) as [[[]|e] w1];
      cbn [snd] in *; rewrite ?Hadd, ?Hdel; by rewrite Hs.
  - unfold MemoryEagerDelegate.removeTarget.
    erewrite bind_normal; [|reflexivity]. unfold bind.
    assert (Hiter : forall keys w0,
      pinsOf (iter MemoryEagerDelegate.orphanedDocuments_add keys w0).2
      = pinsOf w0).
    { induction keys as [|k keys IH]; intros w0; [done|].
      cbn [iter]. unfold bind. specialize (Hadd k w0).
      destruct (MemoryEagerDelegate.orphanedDocuments_add k w0)
        as [[[]|e] w1]; cbn [snd] in *; [|done]. by rewrite IH. }
    specialize (Hiter
      (ReferenceSet.referencesForId (targetId targetData)
         (references (targetCache (store w)))) w).
    destruct (iter _ _ w) as [[[]|e] w1]; cbn [snd] in *; [|done].
    exact Hiter.
Qed.

Lemma commit_keeps_pins txn w :
  pinsOf (MemoryEagerDelegate.onTransactionCommitted txn w).2 = pinsOf w.
Proof.
  unfold MemoryEagerDelegate.onTransactionCommitted.
  destruct (scratch w) as [orphans|] eqn:Horph.
  - rewrite (bind_normal _ _ _ _ _ (orphanedDocuments_in_window w _ Horph)).
    pose proof (forEach_store
      (fun k (changeBuffer : ChangeBuffer) =>
         let! isReferenced := MemoryEagerDelegate.isReferenced txn k in
         if negb isReferenced
         then ret (removeEntry k changeBuffer)
         else ret changeBuffer)
      (commitCallback_store txn) orphans newChangeBuffer w) as Hs.
    unfold bind.
    destruct (PersistencePromise.forEach orphans _ newChangeBuffer w)
      as [[buf|e1] w1]; cbn [snd] in *; by rewrite <- Hs.
  - by rewrite (bind_abrupt _ _ _ _ _
                  (orphanedDocuments_outside_window w Horph)).
Qed.

(** X13. The eager delegate only reads the pin set it borrowed: whatever
    their outcomes, [onTransactionStarted], any sequence of delegate
    calls and the commit hook leave [inMemoryPins] as [setInMemoryPins]
    installed it; [setInMemoryPins] replaces an earlier pin set and
    leaves the scratch set and the caches alone. *)
Theorem eager_pins_stay_installed txn (cs : list DelegateCall) w pins :
  let installed := (MemoryEagerDelegate.setInMemoryPins pins w).2 in
  let opened := afterCalls txn cs (onTransactionStarted installed).2 in
  pinsOf installed = Some pins
  /\ scratch installed = scratch w
  /\ store installed
     = set_referenceDelegate (referenceDelegate (store installed)) (store w)
  /\ pinsOf opened = Some pins
  /\ pinsOf (onTransactionCommitted txn opened).2 = Some pins.
Proof.
  cbv zeta. split; [reflexivity|]. split; [reflexivity|].
  split; [reflexivity|].
  assert (Hcalls : forall w0, pinsOf (afterCalls txn cs w0) = pinsOf w0).
  { induction cs as [|c cs' IH]; intros w0; [done|].
    cbn [afterCalls fold_left]. unfold afterCalls in IH.
    by rewrite IH, call_keeps_pins. }
  split.
  - by rewrite Hcalls.
  - cbn [onTransactionCommitted eager_delegate].
    by rewrite commit_keeps_pins, Hcalls.
Qed.

(** X14. Inside a transaction and with a pin set installed,
    [updateLimboDocument] recomputes the candidate status of the key: it
    resolves, and afterwards the key object is an orphan candidate
    exactly when [isReferenced] reports false for it; the other
    candidates and the caches are as before. *)
Theorem eager_updateLimboDocument_recomputes txn key w pins orphans :
  pinsOf w = Some pins ->
  scratch w = Some orphans ->
  exists w' orphans',
    MemoryEagerDelegate.updateLimboDocument txn key w = (Normal tt, w')
    /\ scratch w' = Some orphans'
    /\ (key ∈ orphans' <->
        (MemoryEagerDelegate.isReferenced txn key w).1 = Normal false)
    /\ (forall k, k <> key -> (k ∈ orphans' <-> k ∈ orphans))
    /\ store w' = set_referenceDelegate (referenceDelegate (store w')) (store w)
    /\ pinsOf w' = Some pins.
Proof.
  intros Hpins Horph.
  destruct (isReferenced_referencedBy txn key w pins Hpins) as [cs E].
  unfold MemoryEagerDelegate.updateLimboDocument.
  rewrite (bind_normal _ _ _ _ _ E), E. cbn [fst].
  assert (H' : scratch (logged cs w) = Some orphans) by exact Horph.
  destruct (referencedBy pins (store w) key).
  - rewrite (orphanedDocuments_delete_eval key _ _ H').
    eexists _, _. split; [reflexivity|]. split; [reflexivity|].
    split; [|split; [|split]].
    + rewrite JsSet_elem_of_delete. split; [tauto|discriminate].
    + intros k Hk. rewrite JsSet_elem_of_delete. tauto.
    + reflexivity.
    + cbn. exact Hpins.
  - rewrite (orphanedDocuments_add_eval key _ _ H').
    eexists _, _. split; [reflexivity|]. split; [reflexivity|].
    split; [|split; [|split]].
    + rewrite JsSet_elem_of_add. tauto.
    + intros k Hk. rewrite JsSet_elem_of_add. tauto.
    + reflexivity.
    + cbn. exact Hpins.
Qed.

(** X15. Outside a transaction [removeTarget] of the eager delegate
    depends on what the target matches.  If it still matches a document,
    the call fails with the assertion failure of the scratch set and the
    target stays in the target cache; if it matches none, the scratch set
    is never touched and the target is removed without an error. *)
Theorem eager_removeTarget_outside_window txn (targetData : TargetData) w :
  scratch w = None ->
  let keys :=
    ReferenceSet.referencesForId (targetId targetData)
      (references (targetCache (store w))) in
  match keys with
  | [] =>
      exists w',
        MemoryEagerDelegate.removeTarget txn targetData w = (Normal tt, w')
        /\ targets (targetCache (store w')) !! targetId targetData = None
        /\ scratch w' = None
  | _ :: _ =>
      MemoryEagerDelegate.removeTarget txn targetData w
      = (Abrupt scratchSetFailure, w)
  end.
Proof.
  intros Hnone keys. unfold MemoryEagerDelegate.removeTarget.
  erewrite bind_normal; [|reflexivity]. fold keys.
  destruct keys as [|k keys'].
  - eexists. split; [reflexivity|]. split; [|exact Hnone].
    cbn. apply lookup_delete_eq.
  - cbn [iter]. unfold MemoryEagerDelegate.orphanedDocuments_add.
    by rewrite (bind_abrupt _ _ _ _ _
                  (bind_abrupt _ _ _ _ _
                     (bind_abrupt _ _ _ _ _
                        (orphanedDocuments_outside_window w Hnone)))).
Qed.

(** X20. Tearing down a target inside a transaction of the eager delegate
    and committing deletes the documents only that target kept alive: a
    key the target matched that no other target matches, no mutation
    queue holds and the pin set does not contain is gone from the
    document cache after [removeTarget] followed by the commit hook, and
    so is the metadata of the target. *)
Theorem eager_removeTarget_then_commit txn (targetData : TargetData) key w
    pins orphans :
  pinsOf w = Some pins ->
  scratch w = Some orphans ->
  key ∈ ReferenceSet.referencesForId (targetId targetData)
          (references (targetCache (store w))) ->
  ReferenceSet.containsKey key
    (ReferenceSet.removeReferencesForId (targetId targetData)
       (references (targetCache (store w)))) = false ->
  queuesContainKey key (mutationQueues (store w)) = false ->
  ReferenceSet.containsKey key pins = false ->
  exists w',
    bind (MemoryEagerDelegate.removeTarget txn targetData)
      (fun _ => MemoryEagerDelegate.onTransactionCommitted txn) w
    = (Normal tt, w')
    /\ docs (remoteDocumentCache (store w')) !! path key = None
    /\ targets (targetCache (store w')) !! targetId targetData = None
    /\ scratch w' = None.
Proof.
  intros Hpins Horph Hkey Hother Hqueues Hpin.
  pose proof (removeTarget_eval txn targetData w orphans Horph) as E.
  set (candidates :=
    fold_left (fun s k => JsSet.add k s)
      (ReferenceSet.referencesForId (targetId targetData)
         (references (targetCache (store w)))) orphans) in *.
  set (w1 := (removeTargetData txn targetData
                (withScratch (Some candidates) w)).2).
  assert (E1 : MemoryEagerDelegate.removeTarget txn targetData w
               = (Normal tt, w1)) by (rewrite E; reflexivity).
  destruct (onTransactionCommitted_eval txn w1 pins candidates)
    as [cs Ec]; [exact Hpins|reflexivity|].
  cbv zeta in Ec.
  eexists. split; [rewrite (bind_normal _ _ _ _ _ E1); exact Ec|].
  split; [|split; [|reflexivity]].
  - cbn [store set_remoteDocumentCache remoteDocumentCache applyChanges docs].
    rewrite deleteAll_lookup, decide_True; [done|].
    apply list_elem_of_fmap. exists key. split; [done|].
    apply list_elem_of_filter. split.
    + assert (Hr : referencedBy pins (store w1) key
                   = ReferenceSet.containsKey key
                       (ReferenceSet.removeReferencesForId
                          (targetId targetData)
                          (references (targetCache (store w))))
                     || queuesContainKey key (mutationQueues (store w))
                     || ReferenceSet.containsKey key pins) by reflexivity.
      by rewrite Hr, Hother, Hqueues, Hpin.
    + apply elem_of_fold_add. by left.
  - cbn. apply lookup_delete_eq.
Qed.
End EagerMore.

Lemma eager_updateLimboDocument_recomputes_witness :
  exists w',
    MemoryEagerDelegate.updateLimboDocument Sample.txn11 Sample.roomB
      (Sample.eager (Some [Sample.roomB])) = (Normal tt, w')
    /\ MemoryEagerDelegate._orphanedDocuments (referenceDelegate (store w'))
       = Some [].
Proof.
  destruct (eager_updateLimboDocument_recomputes Sample.txn11 Sample.roomB
              (Sample.eager (Some [Sample.roomB])) [] [Sample.roomB]
              eq_refl eq_refl) as (w' & orphans' & E & _).
  exists w'. split; [exact E|].
  assert (C : (MemoryEagerDelegate.updateLimboDocument Sample.txn11
                 Sample.roomB (Sample.eager (Some [Sample.roomB]))).2
              = (MemoryEagerDelegate.set_orphanedDocuments (Some [])
                   (logged [TargetCache_containsKey ["rooms"; "b"]]
                      (Sample.eager (Some [Sample.roomB])))).2)
    by (vm_compute; reflexivity).
  rewrite E in C. cbn [snd] in C. rewrite C. reflexivity.
Defined.

Lemma eager_removeTarget_outside_window_witness :
  MemoryEagerDelegate.removeTarget Sample.txn11 Sample.target7
    (Sample.eager None)
  = (Abrupt scratchSetFailure, Sample.eager None).
Proof.
  exact (eager_removeTarget_outside_window Sample.txn11 Sample.target7
           (Sample.eager None) eq_refl).
Defined.

Lemma eager_removeTarget_then_commit_witness :
  exists w',
    bind (MemoryEagerDelegate.removeTarget Sample.txn11 Sample.target7)
      (fun _ => MemoryEagerDelegate.onTransactionCommitted Sample.txn11)
      (Sample.eager (Some [])) = (Normal tt, w')
    /\ docs (remoteDocumentCache (store w')) !! ["rooms"; "b"] = None.
Proof.
  destruct (eager_removeTarget_then_commit Sample.txn11 Sample.target7
              Sample.roomB (Sample.eager (Some [])) [] [])
    as (w' & E & Hgone & _); try reflexivity.
  - apply list_elem_of_here.
  - exists w'. split; [exact E|exact Hgone].
Defined.

(** X17. While no pin set is installed, [isPinned] of the LRU delegate
    never resolves to false: it resolves to true, asking the mutation
    queues only, when one of them holds the key, and otherwise rejects
    with the [TypeError] of the null pin set before the target cache or
    the orphan sequence numbers are looked at. *)
Theorem lru_isPinned_without_pins (txn : MemoryTransaction)
    (key : DocumentKey) (upperBound : ListenSequenceNumber)
    (w : World MemoryLruDelegate.t) :
  MemoryLruDelegate.inMemoryPins (referenceDelegate (store w)) = None ->
  MemoryLruDelegate.isPinned txn key upperBound w =
  (if queuesContainKey key (mutationQueues (store w))
   then Normal true else Abrupt pinsNull,
   logged (queueCalls key (mutationQueues (store w))) w).
Proof.
  intros Hnone. rewrite isPinned_eval. cbv zeta. rewrite Hnone.
  by destruct (queuesContainKey _ _).
Qed.

Lemma lru_isPinned_without_pins_witness :
  MemoryLruDelegate.isPinned Sample.txn11 Sample.roomA 4
    (withNewDelegate MemoryLruDelegate.new Sample.lru)
  = (Abrupt pinsNull,
     logged [MutationQueue_containsKey "uid:alice" ["rooms"; "a"];
             MutationQueue_containsKey "anonymous-user" ["rooms"; "a"]]
       (withNewDelegate MemoryLruDelegate.new Sample.lru)).
Proof.
  exact (lru_isPinned_without_pins Sample.txn11 Sample.roomA 4
           (withNewDelegate MemoryLruDelegate.new Sample.lru) eq_refl).
Defined.

(** ** The accessors of the provider *)
Section ProviderAccessors.
Context {AsyncQueue RemoteStore DatabaseInfo Platform ClientId User : Type}.
Context {LocalStore SyncEngine MemorySharedClientState
         IndexFreeQueryEngine : Type}.
Context (new_MemorySharedClientState : MemorySharedClientState).
Context (new_IndexFreeQueryEngine : IndexFreeQueryEngine).
Context (new_LocalStore : IndexFreeQueryEngine -> User -> LocalStore).
Context (new_SyncEngine :
  LocalStore -> RemoteStore -> MemorySharedClientState -> User -> Z ->
  SyncEngine).

Local Abbreviation PW :=
  (ProviderWorld ClientId LocalStore SyncEngine MemorySharedClientState).

Local Abbreviation init :=
  (initialize AsyncQueue RemoteStore DatabaseInfo Platform ClientId User
     LocalStore SyncEngine MemorySharedClientState IndexFreeQueryEngine
     new_MemorySharedClientState new_IndexFreeQueryEngine new_LocalStore
     new_SyncEngine).

(** X18. The four accessors of the provider fail with the assertion
    failure "initialize() not called" on a provider that was never
    initialised, and still do after an [initialize] that rejected durable
    settings.  After an [initialize] that resolved they return the
    objects it built and change nothing; the sync engine they return is
    the one assigned to the remote store, built over the local store and
    the shared client state the accessors return. *)
Theorem provider_accessors (constructedSoFar : list ClassName)
    (engine : option SyncEngine) (w : PW)
    (asyncQueue : AsyncQueue) (remoteStore : RemoteStore)
    (databaseInfo : DatabaseInfo) (platform : Platform)
    (clientId : ClientId) (initialUser : User)
    (maxConcurrentLimboResolutions : Z) :
  let notCalled {A} : Completion A :=
    Abrupt (AssertionFailure "initialize() not called") in
  let created : PW :=
    {| this := new_MemoryPersistenceProvider;
       remoteStore_syncEngine := engine;
       constructed := constructedSoFar |} in
  let rejected :=
    (init asyncQueue remoteStore databaseInfo platform clientId initialUser
       maxConcurrentLimboResolutions {| durable := true |} created).2 in
  let ready :=
    (init asyncQueue remoteStore databaseInfo platform clientId initialUser
       maxConcurrentLimboResolutions {| durable := false |} w).2 in
  (forall w0, w0 = created \/ w0 = rejected ->
     getPersistence w0 = (notCalled, w0)
     /\ getSharedClientState w0 = (notCalled, w0)
     /\ getLocalStore w0 = (notCalled, w0)
     /\ getSyncEngine w0 = (notCalled, w0))
  /\ exists p s l e,
       getPersistence ready = (Normal p, ready)
       /\ getSharedClientState ready = (Normal s, ready)
       /\ getLocalStore ready = (Normal l, ready)
       /\ getSyncEngine ready = (Normal e, ready)
       /\ remoteStore_syncEngine ready = Some e
       /\ l = new_LocalStore new_IndexFreeQueryEngine initialUser
       /\ e = new_SyncEngine l remoteStore s initialUser
                maxConcurrentLimboResolutions.
Proof.
  cbv zeta. split.
  - intros w0 [-> | ->]; repeat split.
  - unfold initialize. cbn. eexists _, _, _, _.
    do 5 (split; [reflexivity|]). split; reflexivity.
Qed.

End ProviderAccessors.



Lemma lru_sweep_rejects_without_pins_witness :
  exists w',
    MemoryLruDelegate.removeOrphanedDocuments Sample.txn11 10
      (withNewDelegate MemoryLruDelegate.new Sample.lru)
    = (Abrupt pinsNull, w')
    /\ store w' = store (withNewDelegate MemoryLruDelegate.new Sample.lru).
Proof.
  pose proof (lru_sweep_rejects_without_pins Sample.txn11 10
                (withNewDelegate MemoryLruDelegate.new Sample.lru))
    as [[_ Hrejects] Herror].
  destruct Hrejects as (e & w' & E).
  { split; [reflexivity|]. exists Sample.roomA. split; [|reflexivity].
    apply elem_of_documentKeys. reflexivity. }
  destruct (Herror e w' E) as [-> Hs].
  exists w'. split; [exact E|exact Hs].
Defined.

Lemma provider_accessors_witness :
  getPersistence
    {| this := new_MemoryPersistenceProvider (ClientId:=unit)
                 (LocalStore:=unit) (SyncEngine:=unit)
                 (MemorySharedClientState:=unit);
       remoteStore_syncEngine := None;
       constructed := [] |}
  = (Abrupt (AssertionFailure "initialize() not called"),
     {| this := new_MemoryPersistenceProvider;
        remoteStore_syncEngine := None;
        constructed := [] |}).
Proof.
  refine (proj1 (proj1 (provider_accessors
    (AsyncQueue:=unit) (RemoteStore:=unit) (DatabaseInfo:=unit)
    (Platform:=unit) (User:=unit) (IndexFreeQueryEngine:=unit)
    tt tt (fun _ _ => tt) (fun _ _ _ _ _ => tt) [] None
    {| this := new_MemoryPersistenceProvider;
       remoteStore_syncEngine := None;
       constructed := [] |}
    tt tt tt tt tt tt 1) _ _)).
  left. reflexivity.
Defined.
